(** * Pizzada backend: event, order and authentication routes

    A shallow embedding of the FastAPI route handlers of the repository
    ([routes_eventos.py], [routes_auth.py]) and of the request models of
    [models.py].  The relational store is a record of tables (lists of
    rows); every SQL statement of the handlers is written with the
    relational operators of module [Sql]; a handler is a computation in a
    small state-and-exception monad over the store. *)

From Stdlib Require Import ZArith List String Ascii Bool Lia QArith.
From Stdlib Require Import DecimalString Permutation Sorted.
Import ListNotations.

Local Open Scope string_scope.
Local Open Scope Z_scope.

(** ** Relational operators used by the SQL statements *)

Module Sql.

Section Operators.
Context {A : Type}.

(** [... WHERE p] *)
Definition where_ (p : A -> bool) (t : list A) : list A := filter p t.

(** [ORDER BY key DESC]: insertion into a list already in descending
    order.  Rows with equal keys keep the order they had in the table (SQL
    leaves their order open). *)
Fixpoint insert_desc (key : A -> Z) (x : A) (l : list A) : list A :=
  match l with
  | [] => [x]
  | y :: l' => if key y <=? key x then x :: y :: l'
               else y :: insert_desc key x l'
  end.

Definition order_by_desc (key : A -> Z) (t : list A) : list A :=
  fold_right (insert_desc key) [] t.

(** [FETCH FIRST n ROWS ONLY] *)
Definition fetch_first (n : nat) (t : list A) : list A := firstn n t.

(** [cursor.fetchone()]: the first row of the result, [None] when the
    result is empty. *)
Definition fetchone (t : list A) : option A := hd_error t.

(** [COUNT( * )] and [COUNT(col)] for a column without NULLs. *)
Definition count (t : list A) : Z := Z.of_nat (List.length t).

(** [COUNT(DISTINCT col)] for an integer column without NULLs. *)
Definition count_distinct (col : A -> Z) (t : list A) : Z :=
  Z.of_nat (List.length (nodup Z.eq_dec (map col t))).
End Operators.

(** [SUM(col)]: NULL inputs are skipped, and the sum is NULL when no
    non-NULL input exists (in particular over no rows at all). *)
Fixpoint sum_Z (vals : list (option Z)) : option Z :=
  match vals with
  | [] => None
  | None :: vs => sum_Z vs
  | Some v :: vs => Some (v + match sum_Z vs with Some s => s | None => 0 end)
  end.

Fixpoint sum_Q (vals : list (option Q)) : option Q :=
  match vals with
  | [] => None
  | None :: vs => sum_Q vs
  | Some v :: vs => Some (v + match sum_Q vs with Some s => s | None => 0 end)%Q
  end.

(** [l LEFT JOIN r ON on l r]: every left row paired with each matching
    right row, or once with NULLs when no right row matches. *)
Definition left_join_row {A B : Type} (on : A -> B -> bool)
    (r : list B) (a : A) : list (A * option B) :=
  match filter (on a) r with
  | [] => [(a, None)]
  | ms => map (fun b => (a, Some b)) ms
  end.

Definition left_join {A B : Type} (on : A -> B -> bool)
    (l : list A) (r : list B) : list (A * option B) :=
  flat_map (left_join_row on r) l.

End Sql.

(** ** Python values *)

(** [str(n)] for an integer. *)
Definition str (n : Z) : string := NilZero.string_of_int (Z.to_int n).

(** A Python [str] is held as its UTF-8 encoding.  [len(s)] counts its
    characters, that is the bytes that do not continue a character (a
    continuation byte is 10xxxxxx, from 128 to 191). *)
Definition is_continuation (c : ascii) : bool :=
  ((128 <=? nat_of_ascii c) && (nat_of_ascii c <? 192))%nat.

Fixpoint len (s : string) : nat :=
  match s with
  | EmptyString => 0%nat
  | String c s' => if is_continuation c then len s' else S (len s')
  end.

(** ** Request and response models ([models.py])

    A model is a record of its fields; its [valid] is the check of the
    [Field] constraints that runs on a request body before a handler is
    called.  The length constraints count characters ([len]). *)

Module UsuarioCreate.
Record t := mk
  { nome_completo : string; setor : string; senha : string; is_admin : bool }.

(** [nome_completo: min_length=3, max_length=200],
    [setor: min_length=2, max_length=100], [senha: min_length=6] *)
Definition valid (u : t) : bool :=
  ((3 <=? len (nome_completo u))
   && (len (nome_completo u) <=? 200)
   && (2 <=? len (setor u))
   && (len (setor u) <=? 100)
   && (6 <=? len (senha u)))%nat.
End UsuarioCreate.

Module UsuarioLogin.
Record t := mk { nome_completo : string; senha : string }.
End UsuarioLogin.

Module UsuarioResponse.
Record t := mk
  { id : Z; nome_completo : string; setor : string; is_admin : bool;
    ativo : bool; data_cadastro : option Z }.
End UsuarioResponse.

Module Token.
Record t := mk
  { access_token : string; token_type : string; user : UsuarioResponse.t }.
End Token.

(** Dates are day numbers and timestamps are instants on one integer time
    line; only their order and equality matter to the handlers. *)
Module EventoCreate.
Record t := mk
  { data_evento : Z; data_limite : Z; nome : option string }.
End EventoCreate.

Module EventoUpdate.
Record t := mk { status : option string; data_limite : option Z }.

(** [pattern="^(ABERTO|FECHADO|FINALIZADO)$"]: an anchored alternation of
    three literals matches exactly the strings equal to one of them. *)
Definition status_pattern : list string := ["ABERTO"; "FECHADO"; "FINALIZADO"].

Definition valid (e : t) : bool :=
  match status e with
  | None => true
  | Some s => existsb (String.eqb s) status_pattern
  end.
End EventoUpdate.

Module EventoResponse.
Record t := mk
  { id : Z; data_evento : Z; status : string; data_limite : Z;
    data_criacao : option Z; nome : option string }.
End EventoResponse.

Module ItemPedidoCreate.
Record t := mk { sabor_id : Z; quantidade : Z }.

(** [quantidade: int = Field(..., gt=0, le=8)] *)
Definition valid (i : t) : bool := (0 <? quantidade i) && (quantidade i <=? 8).
End ItemPedidoCreate.

Module PedidoCreate.
Record t := mk { evento_id : Z; itens : list ItemPedidoCreate.t }.

(** [itens: List[ItemPedidoCreate] = Field(..., min_items=1)]; every
    element is validated as an [ItemPedidoCreate]. *)
Definition valid (p : t) : bool :=
  (1 <=? List.length (itens p))%nat && forallb ItemPedidoCreate.valid (itens p).
End PedidoCreate.

Module ResumoEvento.
Record t := mk
  { evento : EventoResponse.t; total_participantes : Z; total_pedidos : Z;
    total_pizzas : Z; valor_total : Q }.
End ResumoEvento.

(** ** The relational store

    Tables [usuarios], [sabores], [eventos], [pedidos], [itens_pedido],
    with the columns the statements of the handlers read or write.
    Monetary columns are exact decimals, kept as rationals. *)

Module usuarios.
Record row := mk
  { id : Z; nome_completo : string; senha_hash : string; setor : string;
    is_admin : Z; ativo : Z; data_cadastro : option Z }.
End usuarios.

Module sabores.
Record row := mk { id : Z; nome : string; preco_pedaco : Q; ativo : Z }.
End sabores.

Module eventos.
Record row := mk
  { id : Z; data_evento : Z; status : string; data_limite : Z;
    data_criacao : option Z }.
End eventos.

Module pedidos.
Record row := mk
  { id : Z; evento_id : Z; usuario_id : Z; valor_total : Q; valor_frete : Q;
    status : string }.
End pedidos.

Module itens_pedido.
Record row := mk
  { id : Z; pedido_id : Z; sabor_id : Z; quantidade : Z;
    preco_unitario : Q; subtotal : Q }.
End itens_pedido.

Record Database := mkDatabase
  { tbl_usuarios : list usuarios.row;
    tbl_sabores : list sabores.row;
    tbl_eventos : list eventos.row;
    tbl_pedidos : list pedidos.row;
    tbl_itens_pedido : list itens_pedido.row }.

Definition with_usuarios (t : list usuarios.row) (db : Database) : Database :=
  mkDatabase t (tbl_sabores db) (tbl_eventos db) (tbl_pedidos db)
             (tbl_itens_pedido db).

Definition with_eventos (t : list eventos.row) (db : Database) : Database :=
  mkDatabase (tbl_usuarios db) (tbl_sabores db) t (tbl_pedidos db)
             (tbl_itens_pedido db).

Definition with_pedidos (t : list pedidos.row) (db : Database) : Database :=
  mkDatabase (tbl_usuarios db) (tbl_sabores db) (tbl_eventos db) t
             (tbl_itens_pedido db).

Definition with_itens_pedido (t : list itens_pedido.row) (db : Database)
  : Database :=
  mkDatabase (tbl_usuarios db) (tbl_sabores db) (tbl_eventos db)
             (tbl_pedidos db) t.

(** ** Handlers: state over the store, exceptions as HTTP errors *)

Inductive Result (A : Type) : Type :=
| Return (value : A)
| Raise (status_code : Z) (detail : string).
Arguments Return {A} value.
Arguments Raise {A} status_code detail.

Definition Handler (A : Type) : Type := Database -> Result A * Database.

Definition ret {A} (a : A) : Handler A := fun db => (Return a, db).

Definition raise {A} (status_code : Z) (detail : string) : Handler A :=
  fun db => (Raise status_code detail, db).

Definition bind {A B} (m : Handler A) (k : A -> Handler B) : Handler B :=
  fun db =>
    match m db with
    | (Return a, db') => k a db'
    | (Raise c d, db') => (Raise c d, db')
    end.

(** A SELECT: reads the store. *)
Definition query {A} (q : Database -> A) : Handler A := fun db => (Return (q db), db).

(** An INSERT, UPDATE or DELETE: rewrites the store and yields
    [cursor.rowcount]. *)
Definition execute (stmt : Database -> Database * Z) : Handler Z :=
  fun db => let (db', rowcount) := stmt db in (Return rowcount, db').

Declare Scope handler_scope.
Delimit Scope handler_scope with handler.
Notation "x <- m ;; k" := (bind m (fun x => k))
  (at level 61, m at next level, right associativity) : handler_scope.
Notation "m ;; k" := (bind m (fun _ => k))
  (at level 61, right associativity) : handler_scope.

(** ** Routes: what the client receives *)

(** What the client receives: the body with the status code of the route
    decorator, or the error raised by the handler. *)
Inductive Outcome (A : Type) : Type :=
| Success (status_code : Z) (body : A)
| HTTPException (status_code : Z) (detail : string).
Arguments Success {A} status_code body.
Arguments HTTPException {A} status_code detail.

Definition endpoint {A} (status_code : Z) (h : Handler A)
  : Database -> Outcome A * Database :=
  fun db =>
    match h db with
    | (Return a, db') => (Success status_code a, db')
    | (Raise c d, db') => (HTTPException c d, db')
    end.

Definition HTTP_200_OK := 200.
Definition HTTP_201_CREATED := 201.
Definition HTTP_204_NO_CONTENT := 204.
Definition HTTP_400_BAD_REQUEST := 400.
Definition HTTP_401_UNAUTHORIZED := 401.
Definition HTTP_404_NOT_FOUND := 404.
Definition HTTP_422_UNPROCESSABLE_ENTITY := 422.
Definition HTTP_500_INTERNAL_SERVER_ERROR := 500.

(** [result[0]] on a [None] result is a [TypeError], which the framework
    answers with status 500. *)
Definition subscript_row {R A} (result : option R)
    (k : R -> Handler A) : Handler A :=
  match result with
  | Some r => k r
  | None => raise HTTP_500_INTERNAL_SERVER_ERROR "Internal Server Error"
  end.

(** A request body is validated against its model before the handler is
    called; a body that fails is answered with status 422 and the handler
    does not run.  The error list of that answer is not modelled. *)
Definition RequestValidationError {A} : Outcome A :=
  HTTPException HTTP_422_UNPROCESSABLE_ENTITY "Unprocessable Entity".

Definition validated {B A} (valid : B -> bool)
    (handler : B -> Database -> Outcome A * Database) (body : B)
  : Database -> Outcome A * Database :=
  fun db => if valid body then handler body db else (RequestValidationError, db).

(** The dict that [Depends(get_current_user)] and
    [Depends(get_current_admin_user)] hand to a handler. *)
Record CurrentUser := mkCurrentUser
  { cu_id : Z; cu_nome_completo : string; cu_setor : string;
    cu_is_admin : bool; cu_ativo : bool; cu_data_cadastro : option Z }.

(** ** Event routes ([routes_eventos.py]) *)

Module RoutesEventos.

Local Open Scope handler_scope.

(** [EventoResponse(id=result[0], data_evento=result[1], status=result[2],
    data_limite=result[3], data_criacao=result[4])]; [nome] keeps its
    default. *)
Definition EventoResponse_of (result : eventos.row) : EventoResponse.t :=
  EventoResponse.mk (eventos.id result) (eventos.data_evento result)
    (eventos.status result) (eventos.data_limite result)
    (eventos.data_criacao result) None.

(** [WHERE status = 'ABERTO' AND data_limite > SYSTIMESTAMP] *)
Definition ativo_where (systimestamp : Z) (e : eventos.row) : bool :=
  String.eqb (eventos.status e) "ABERTO"
  && (systimestamp <? eventos.data_limite e).

Definition ativo_query (systimestamp : Z) (db : Database) : option eventos.row :=
  Sql.fetchone
    (Sql.fetch_first 1
       (Sql.order_by_desc eventos.data_evento
          (Sql.where_ (ativo_where systimestamp) (tbl_eventos db)))).

Definition obter_evento_ativo (systimestamp : Z) (current_user : CurrentUser)
  : Database -> Outcome EventoResponse.t * Database :=
  endpoint HTTP_200_OK
    (result <- query (ativo_query systimestamp) ;;
     match result with
     | None => raise HTTP_404_NOT_FOUND "Não há evento ativo no momento"
     | Some r => ret (EventoResponse_of r)
     end).

(** [SELECT ... FROM eventos WHERE id = :evento_id] *)
Definition select_evento (evento_id : Z) (db : Database) : option eventos.row :=
  Sql.fetchone
    (Sql.where_ (fun e => eventos.id e =? evento_id) (tbl_eventos db)).

(** [SELECT ... FROM eventos WHERE data_evento = :data_evento] *)
Definition select_evento_por_data (data : Z) (db : Database)
  : option eventos.row :=
  Sql.fetchone
    (Sql.where_ (fun e => eventos.data_evento e =? data) (tbl_eventos db)).

(** [INSERT INTO eventos (data_evento, data_limite, status) VALUES
    (:data_evento, :data_limite, 'ABERTO')].  The columns the statement
    leaves out get the values the store generates: [new_id] for [id] and
    [criacao] for [data_criacao]. *)
Definition insert_evento (new_id : Z) (criacao : option Z)
    (data_evento data_limite : Z) (db : Database) : Database * Z :=
  (with_eventos
     (tbl_eventos db
      ++ [eventos.mk new_id data_evento "ABERTO" data_limite criacao]) db,
   1).

Definition criar_evento (new_id : Z) (criacao : option Z)
    (evento : EventoCreate.t) (current_user : CurrentUser)
  : Database -> Outcome EventoResponse.t * Database :=
  endpoint HTTP_201_CREATED
    (existing <- query (select_evento_por_data (EventoCreate.data_evento evento)) ;;
     match existing with
     | Some _ =>
         raise HTTP_400_BAD_REQUEST "Já existe um evento para esta data"
     | None =>
         execute (insert_evento new_id criacao
                    (EventoCreate.data_evento evento)
                    (EventoCreate.data_limite evento)) ;;
         result <- query (select_evento_por_data
                            (EventoCreate.data_evento evento)) ;;
         subscript_row result (fun r => ret (EventoResponse_of r))
     end).

(** The [updates] list of [atualizar_evento]: one assignment per field of
    the request that is not [None], in the order the handler appends them. *)
Definition set_status (s : string) (e : eventos.row) : eventos.row :=
  eventos.mk (eventos.id e) (eventos.data_evento e) s (eventos.data_limite e)
             (eventos.data_criacao e).

Definition set_data_limite (d : Z) (e : eventos.row) : eventos.row :=
  eventos.mk (eventos.id e) (eventos.data_evento e) (eventos.status e) d
             (eventos.data_criacao e).

Definition updates_of (evento : EventoUpdate.t)
  : list (eventos.row -> eventos.row) :=
  (match EventoUpdate.status evento with
   | Some s => [set_status s]
   | None => []
   end)
  ++ (match EventoUpdate.data_limite evento with
      | Some d => [set_data_limite d]
      | None => []
      end).

Definition apply_updates (updates : list (eventos.row -> eventos.row))
    (e : eventos.row) : eventos.row :=
  fold_left (fun r f => f r) updates e.

(** [UPDATE eventos SET <updates> WHERE id = :evento_id] *)
Definition update_evento (updates : list (eventos.row -> eventos.row))
    (evento_id : Z) (db : Database) : Database * Z :=
  (with_eventos
     (map (fun e => if eventos.id e =? evento_id
                    then apply_updates updates e else e)
          (tbl_eventos db)) db,
   Sql.count (Sql.where_ (fun e => eventos.id e =? evento_id) (tbl_eventos db))).

Definition atualizar_evento (evento_id : Z) (evento : EventoUpdate.t)
    (current_user : CurrentUser)
  : Database -> Outcome EventoResponse.t * Database :=
  endpoint HTTP_200_OK
    (existing <- query (select_evento evento_id) ;;
     match existing with
     | None => raise HTTP_404_NOT_FOUND "Evento não encontrado"
     | Some _ =>
         let updates := updates_of evento in
         match updates with
         | [] => raise HTTP_400_BAD_REQUEST "Nenhum campo para atualizar"
         | _ =>
             execute (update_evento updates evento_id) ;;
             result <- query (select_evento evento_id) ;;
             subscript_row result (fun r => ret (EventoResponse_of r))
         end
     end).

(** [PUT /eventos/{evento_id}]: the body is validated against
    [EventoUpdate], then handed to [atualizar_evento]. *)
Definition put_evento (evento_id : Z) (body : EventoUpdate.t)
    (current_user : CurrentUser)
  : Database -> Outcome EventoResponse.t * Database :=
  validated EventoUpdate.valid
    (fun evento => atualizar_evento evento_id evento current_user) body.

(** [SELECT COUNT( * ) FROM pedidos WHERE evento_id = :evento_id] *)
Definition count_pedidos (evento_id : Z) (db : Database) : Z :=
  Sql.count (Sql.where_ (fun p => pedidos.evento_id p =? evento_id)
                        (tbl_pedidos db)).

(** [DELETE FROM eventos WHERE id = :evento_id] *)
Definition delete_evento (evento_id : Z) (db : Database) : Database * Z :=
  (with_eventos
     (Sql.where_ (fun e => negb (eventos.id e =? evento_id)) (tbl_eventos db))
     db,
   Sql.count (Sql.where_ (fun e => eventos.id e =? evento_id) (tbl_eventos db))).

Definition deletar_evento (evento_id : Z) (current_user : CurrentUser)
  : Database -> Outcome unit * Database :=
  endpoint HTTP_204_NO_CONTENT
    (result <- query (count_pedidos evento_id) ;;
     if 0 <? result then
       raise HTTP_400_BAD_REQUEST
         ("Não é possível deletar evento com " ++ str result
          ++ " pedido(s). Delete os pedidos primeiro.")
     else
       rowcount <- execute (delete_evento evento_id) ;;
       if rowcount =? 0 then
         raise HTTP_404_NOT_FOUND "Evento não encontrado"
       else ret tt).

(** The row set of [stats_query]:
    [FROM pedidos p LEFT JOIN itens_pedido ip ON p.id = ip.pedido_id
     WHERE p.evento_id = :evento_id] *)
Definition stats_on (p : pedidos.row) (ip : itens_pedido.row) : bool :=
  pedidos.id p =? itens_pedido.pedido_id ip.

Definition stats_where (evento_id : Z)
    (r : pedidos.row * option itens_pedido.row) : bool :=
  pedidos.evento_id (fst r) =? evento_id.

Definition stats_rows (evento_id : Z) (db : Database)
  : list (pedidos.row * option itens_pedido.row) :=
  Sql.where_ (stats_where evento_id)
    (Sql.left_join stats_on (tbl_pedidos db) (tbl_itens_pedido db)).

(** The single row an aggregate query without GROUP BY returns:
    [COUNT(DISTINCT p.usuario_id)], [COUNT(p.id)],
    [SUM(p.valor_total + p.valor_frete)], [SUM(ip.quantidade)]. *)
Definition stats_query (evento_id : Z) (db : Database)
  : Z * Z * option Q * option Z :=
  let rows := stats_rows evento_id db in
  (Sql.count_distinct (fun r => pedidos.usuario_id (fst r)) rows,
   Sql.count rows,
   Sql.sum_Q
     (map (fun r => Some (pedidos.valor_total (fst r)
                          + pedidos.valor_frete (fst r))%Q) rows),
   Sql.sum_Z (map (fun r => option_map itens_pedido.quantidade (snd r)) rows)).

(** [int(x) if x else 0]: [None] and [0] are both falsy. *)
Definition int_if (x : option Z) : Z :=
  match x with
  | Some v => if v =? 0 then 0 else v
  | None => 0
  end.

(** [float(x) if x else 0.0]; the value is kept exact, the rounding of the
    conversion to a binary float is not modelled. *)
Definition float_if (x : option Q) : Q :=
  match x with
  | Some v => if Qeq_bool v 0 then 0%Q else v
  | None => 0%Q
  end.

Definition obter_resumo_evento (evento_id : Z) (current_user : CurrentUser)
  : Database -> Outcome ResumoEvento.t * Database :=
  endpoint HTTP_200_OK
    (evento_result <- query (select_evento evento_id) ;;
     match evento_result with
     | None => raise HTTP_404_NOT_FOUND "Evento não encontrado"
     | Some ev =>
         stats_result <- query (stats_query evento_id) ;;
         let '(s0, s1, s2, s3) := stats_result in
         let total_participantes := int_if (Some s0) in
         let total_pedidos := int_if (Some s1) in
         let valor_total := float_if s2 in
         let total_pedacos := int_if s3 in
         let total_pizzas := total_pedacos / 8 in
         ret (ResumoEvento.mk (EventoResponse_of ev) total_participantes
                total_pedidos total_pizzas valor_total)
     end).

(** [SELECT ... FROM eventos ORDER BY data_evento DESC] *)
Definition select_eventos (db : Database) : list eventos.row :=
  Sql.order_by_desc eventos.data_evento (tbl_eventos db).

Definition listar_eventos (current_user : CurrentUser)
  : Database -> Outcome (list EventoResponse.t) * Database :=
  endpoint HTTP_200_OK
    (results <- query select_eventos ;;
     ret (map EventoResponse_of results)).

Definition obter_evento (evento_id : Z) (current_user : CurrentUser)
  : Database -> Outcome EventoResponse.t * Database :=
  endpoint HTTP_200_OK
    (result <- query (select_evento evento_id) ;;
     match result with
     | None => raise HTTP_404_NOT_FOUND "Evento não encontrado"
     | Some r => ret (EventoResponse_of r)
     end).

End RoutesEventos.

(** ** Authentication routes ([routes_auth.py]) *)

(** Modelled from the spec: the helpers of [auth.py] and the setting of
    [config.py] that [routes_auth.py] imports are not among the sources.
    The spec describes them as a one-way password hash with a verification
    against the stored hash, and a signed, time-bounded bearer token that
    encodes the identity it was created for. *)
Class AuthHelpers := mkAuthHelpers
  { get_password_hash : string -> string;
    verify_password : string -> string -> bool;
    create_access_token : list (string * string) -> Z -> string;
    token_subject : string -> option string;
    ACCESS_TOKEN_EXPIRE_MINUTES : Z }.

(** What the spec promises of them: a password verifies against its own
    hash and against no other password's, and a token carries the subject
    it was created with. *)
Class AuthHelpersSpec (H : AuthHelpers) : Prop := mkAuthHelpersSpec
  { verify_hash :
      forall senha, verify_password senha (get_password_hash senha) = true;
    verify_own :
      forall senha senha',
        verify_password senha (get_password_hash senha') = true -> senha = senha';
    subject_create :
      forall sub expires,
        token_subject (create_access_token [("sub", sub)] expires) = Some sub }.

Module RoutesAuth.

Local Open Scope handler_scope.

Section WithHelpers.
Context {helpers : AuthHelpers}.

(** [bool(x)] for a numeric column. *)
Definition bool_of (x : Z) : bool := negb (x =? 0).

(** [SELECT ... FROM usuarios WHERE nome_completo = :nome] *)
Definition select_usuario (nome : string) (db : Database) : option usuarios.row :=
  Sql.fetchone
    (Sql.where_ (fun u => String.eqb (usuarios.nome_completo u) nome)
                (tbl_usuarios db)).

(** [INSERT INTO usuarios (nome_completo, senha_hash, setor, is_admin)
    VALUES (:nome, :senha, :setor, :admin)].  The store generates [id],
    [ativo] and [data_cadastro]. *)
Definition insert_usuario (new_id ativo : Z) (cadastro : option Z)
    (nome senha setor : string) (admin : Z) (db : Database) : Database * Z :=
  (with_usuarios
     (tbl_usuarios db
      ++ [usuarios.mk new_id nome senha setor admin ativo cadastro]) db,
   1).

(** [UsuarioResponse(id=result[0], nome_completo=result[1],
    setor=result[2], is_admin=bool(result[3]), ativo=bool(result[4]),
    data_cadastro=result[5])] *)
Definition UsuarioResponse_of (result : usuarios.row) : UsuarioResponse.t :=
  UsuarioResponse.mk (usuarios.id result) (usuarios.nome_completo result)
    (usuarios.setor result) (bool_of (usuarios.is_admin result))
    (bool_of (usuarios.ativo result)) (usuarios.data_cadastro result).

Definition register (new_id ativo : Z) (cadastro : option Z)
    (user : UsuarioCreate.t)
  : Database -> Outcome UsuarioResponse.t * Database :=
  endpoint HTTP_201_CREATED
    (existing <- query (select_usuario (UsuarioCreate.nome_completo user)) ;;
     match existing with
     | Some _ => raise HTTP_400_BAD_REQUEST "Usuário já existe com este nome"
     | None =>
         let hashed_password := get_password_hash (UsuarioCreate.senha user) in
         execute (insert_usuario new_id ativo cadastro
                    (UsuarioCreate.nome_completo user) hashed_password
                    (UsuarioCreate.setor user)
                    (if UsuarioCreate.is_admin user then 1 else 0)) ;;
         result <- query (select_usuario (UsuarioCreate.nome_completo user)) ;;
         subscript_row result (fun r => ret (UsuarioResponse_of r))
     end).

(** [POST /auth/register]: the body is validated against [UsuarioCreate],
    then handed to [register].  The route has no dependency: nothing of the
    request but its body reaches the handler. *)
Definition post_register (new_id ativo : Z) (cadastro : option Z)
    (body : UsuarioCreate.t)
  : Database -> Outcome UsuarioResponse.t * Database :=
  validated UsuarioCreate.valid (register new_id ativo cadastro) body.

(** The row a registration request is stored as. *)
Definition usuario_registrado (new_id ativo : Z) (cadastro : option Z)
    (user : UsuarioCreate.t) : usuarios.row :=
  usuarios.mk new_id (UsuarioCreate.nome_completo user)
    (get_password_hash (UsuarioCreate.senha user)) (UsuarioCreate.setor user)
    (if UsuarioCreate.is_admin user then 1 else 0) ativo cadastro.

(** Modelled from the spec: [authenticate_user] of [auth.py] is not among
    the sources.  It looks the user up by name and verifies the password
    against the stored hash; it yields the user's dict, or nothing when the
    name is unknown or the password does not verify. *)
Definition authenticate_user (nome_completo senha : string) (db : Database)
  : option CurrentUser :=
  match select_usuario nome_completo db with
  | None => None
  | Some r =>
      if verify_password senha (usuarios.senha_hash r)
      then Some (mkCurrentUser (usuarios.id r) (usuarios.nome_completo r)
                   (usuarios.setor r) (bool_of (usuarios.is_admin r))
                   (bool_of (usuarios.ativo r)) (usuarios.data_cadastro r))
      else None
  end.

Definition login (credentials : UsuarioLogin.t)
  : Database -> Outcome Token.t * Database :=
  endpoint HTTP_200_OK
    (user <- query (authenticate_user (UsuarioLogin.nome_completo credentials)
                                      (UsuarioLogin.senha credentials)) ;;
     match user with
     | None =>
         raise HTTP_401_UNAUTHORIZED "Nome de usuário ou senha incorretos"
     | Some user =>
         let access_token_expires := ACCESS_TOKEN_EXPIRE_MINUTES in
         let access_token :=
           create_access_token [("sub", str (cu_id user))] access_token_expires in
         ret (Token.mk access_token "bearer"
                (UsuarioResponse.mk (cu_id user) (cu_nome_completo user)
                   (cu_setor user) (cu_is_admin user) (cu_ativo user)
                   (cu_data_cadastro user)))
     end).

End WithHelpers.
End RoutesAuth.

(** ** Order creation ([POST /pedidos/]) *)

Module RoutesPedidos.

Local Open Scope handler_scope.

(** [SELECT ... FROM sabores WHERE id = :sabor_id] *)
Definition select_sabor (sabor_id : Z) (db : Database) : option sabores.row :=
  Sql.fetchone (Sql.where_ (fun s => sabores.id s =? sabor_id) (tbl_sabores db)).

(** Modelled from the spec: the line items of an order, one per item of
    the request and in its order.  Each referenced flavor must exist and be
    active; the unit price is the flavor's current price per slice and the
    subtotal is quantity times unit price.  The store numbers the rows
    from [item_id] on. *)
Fixpoint linhas_pedido (pedido_id item_id : Z) (itens : list ItemPedidoCreate.t)
  : Handler (list itens_pedido.row) :=
  match itens with
  | [] => ret []
  | item :: rest =>
      sabor <- query (select_sabor (ItemPedidoCreate.sabor_id item)) ;;
      match sabor with
      | None => raise HTTP_404_NOT_FOUND "Sabor não encontrado"
      | Some s =>
          if sabores.ativo s =? 0 then
            raise HTTP_400_BAD_REQUEST "Sabor inativo"
          else
            linhas <- linhas_pedido pedido_id (item_id + 1) rest ;;
            ret (itens_pedido.mk item_id pedido_id
                   (ItemPedidoCreate.sabor_id item)
                   (ItemPedidoCreate.quantidade item)
                   (sabores.preco_pedaco s)
                   (inject_Z (ItemPedidoCreate.quantidade item)
                    * sabores.preco_pedaco s)%Q
                 :: linhas)
      end
  end.

Definition insert_pedido (p : pedidos.row) (linhas : list itens_pedido.row)
    (db : Database) : Database * Z :=
  (with_itens_pedido (tbl_itens_pedido db ++ linhas)
     (with_pedidos (tbl_pedidos db ++ [p]) db),
   1 + Sql.count linhas).

(** Modelled from the spec: the order-creation handler of
    [routes_pedidos.py] is not among the sources.  The event must exist and
    be inside its open window (status ABERTO, deadline in the future); the
    order belongs to the authenticated user; its total is the sum of the
    line subtotals; the shipping value is an input; all checks precede the
    first write. *)
Definition criar_pedido (systimestamp new_id item_id : Z) (valor_frete : Q)
    (current_user : CurrentUser) (pedido : PedidoCreate.t)
  : Database -> Outcome (pedidos.row * list itens_pedido.row) * Database :=
  endpoint HTTP_201_CREATED
    (evento <- query (RoutesEventos.select_evento (PedidoCreate.evento_id pedido)) ;;
     match evento with
     | None => raise HTTP_404_NOT_FOUND "Evento não encontrado"
     | Some ev =>
         if RoutesEventos.ativo_where systimestamp ev then
           linhas <- linhas_pedido new_id item_id (PedidoCreate.itens pedido) ;;
           let valor_total :=
             fold_right (fun l acc => (itens_pedido.subtotal l + acc)%Q) 0%Q linhas in
           let p := pedidos.mk new_id (PedidoCreate.evento_id pedido)
                      (cu_id current_user) valor_total valor_frete "PENDENTE" in
           execute (insert_pedido p linhas) ;;
           ret (p, linhas)
         else raise HTTP_400_BAD_REQUEST "Evento fechado para pedidos"
     end).

(** [POST /pedidos/]: the body is validated against [PedidoCreate], then
    handed to the handler. *)
Definition post_pedido {A}
    (handler : PedidoCreate.t -> Database -> Outcome A * Database)
    (body : PedidoCreate.t) : Database -> Outcome A * Database :=
  validated PedidoCreate.valid handler body.

End RoutesPedidos.

(** ** What the summary of an event is meant to report *)

(** The foreign key from [pedidos.evento_id] to [eventos.id]. *)
Definition fk_pedidos_eventos (db : Database) : Prop :=
  forall p, In p (tbl_pedidos db) ->
    exists e, In e (tbl_eventos db) /\ eventos.id e = pedidos.evento_id p.

(** The primary key of [pedidos]. *)
Definition pk_pedidos (db : Database) : Prop :=
  NoDup (map pedidos.id (tbl_pedidos db)).

(** The orders that reference an event. *)
Definition pedidos_do_evento (evento_id : Z) (db : Database) : list pedidos.row :=
  filter (fun p => pedidos.evento_id p =? evento_id) (tbl_pedidos db).

(** The line items of an event: those that belong to one of its orders. *)
Definition itens_do_evento (evento_id : Z) (db : Database)
  : list itens_pedido.row :=
  filter (fun ip =>
            existsb (fun p => (pedidos.id p =? itens_pedido.pedido_id ip)
                              && (pedidos.evento_id p =? evento_id))
                    (tbl_pedidos db))
         (tbl_itens_pedido db).

Definition sumZ (l : list Z) : Z := fold_right Z.add 0 l.

(** The sum of the non-NULL values of a column. *)
Definition sum_some (l : list (option Z)) : Z :=
  fold_right (fun o acc => match o with Some v => v + acc | None => acc end) 0 l.

(** S, the slices of an event summed over its line items. *)
Definition total_pedacos_do_evento (evento_id : Z) (db : Database) : Z :=
  sumZ (map itens_pedido.quantidade (itens_do_evento evento_id db)).

(** The sum over the orders of an event of total plus shipping. *)
Definition valor_dos_pedidos (evento_id : Z) (db : Database) : Q :=
  fold_right (fun p acc => (pedidos.valor_total p + pedidos.valor_frete p + acc)%Q)
             0%Q (pedidos_do_evento evento_id db).

(** ** What a partial update of an event is meant to do *)

(** The three statuses an event may be given. *)
Definition status_permitido (s : string) : Prop :=
  s = "ABERTO" \/ s = "FECHADO" \/ s = "FINALIZADO".

(** What a partial update does to one event row: a provided field takes the
    provided value, every other field keeps its value. *)
Definition campos_atualizados (evento : EventoUpdate.t) (e e' : eventos.row)
  : Prop :=
  eventos.id e' = eventos.id e
  /\ eventos.data_evento e' = eventos.data_evento e
  /\ eventos.data_criacao e' = eventos.data_criacao e
  /\ eventos.status e' =
       match EventoUpdate.status evento with
       | Some s => s
       | None => eventos.status e
       end
  /\ eventos.data_limite e' =
       match EventoUpdate.data_limite evento with
       | Some d => d
       | None => eventos.data_limite e
       end.

(** ** Sample stores *)

Module Sample.

Definition admin : CurrentUser := mkCurrentUser 1 "Roger" "TI" true true None.

(** The example of the spec: an event dated day 100 with deadline 105 and
    two orders, A with 5 slices of flavor 1 and 3 slices of flavor 2, B
    with 4 slices of flavor 1. *)
Definition db : Database :=
  mkDatabase
    [usuarios.mk 1 "Roger" "h:segredo" "TI" 1 1 None;
     usuarios.mk 2 "Ana Lima" "h:abc123" "RH" 0 1 None]
    [sabores.mk 1 "Calabresa" (5#1) 1; sabores.mk 2 "Mussarela" (6#1) 1;
     sabores.mk 3 "Portuguesa" (7#1) 0]
    [eventos.mk 1 100 "ABERTO" 105 None;
     eventos.mk 2 70 "FECHADO" 75 None;
     eventos.mk 3 130 "ABERTO" 135 None]
    [pedidos.mk 10 1 1 (43#1) (2#1) "PENDENTE";
     pedidos.mk 11 1 2 (20#1) (2#1) "PENDENTE"]
    [itens_pedido.mk 100 10 1 5 (5#1) (25#1);
     itens_pedido.mk 101 10 2 3 (6#1) (18#1);
     itens_pedido.mk 102 11 1 4 (5#1) (20#1)].

(** The smallest store that shows the join of [stats_query] at work: one
    order with two line items. *)
Definition db_um_pedido : Database :=
  mkDatabase []
    []
    [eventos.mk 1 100 "ABERTO" 105 None]
    [pedidos.mk 10 1 7 (40#1) (5#1) "PENDENTE"]
    [itens_pedido.mk 100 10 1 5 (5#1) (25#1);
     itens_pedido.mk 101 10 2 3 (5#1) (15#1)].

(** Stand-ins for the helpers of [auth.py], to run the handlers on. *)
Definition helpers : AuthHelpers :=
  mkAuthHelpers
    (fun senha => "h:" ++ senha)
    (fun senha hash => String.eqb hash ("h:" ++ senha))
    (fun data _ =>
       match data with
       | (_, sub) :: _ => "tok:" ++ sub
       | [] => "tok:"
       end)
    (fun token =>
       match token with
       | String "t" (String "o" (String "k" (String ":" sub))) => Some sub
       | _ => None
       end)
    30.

Definition novo_admin : UsuarioCreate.t :=
  UsuarioCreate.mk "Bia Souza" "Vendas" "s3nh4!" true.

Definition vazio : Database := mkDatabase [] [] [] [] [].

End Sample.

(** ** What the routes are meant to keep *)

(** At most one event per calendar date. *)
Definition datas_unicas (db : Database) : Prop :=
  NoDup (map eventos.data_evento (tbl_eventos db)).

(** At most one user per name. *)
Definition nomes_unicos (db : Database) : Prop :=
  NoDup (map usuarios.nome_completo (tbl_usuarios db)).

(** Latest event date first. *)
Definition data_desc (a b : EventoResponse.t) : Prop :=
  EventoResponse.data_evento b <= EventoResponse.data_evento a.

(** An event, as a client sees it, is open for orders at an instant. *)
Definition aberto_em (systimestamp : Z) (e : EventoResponse.t) : bool :=
  String.eqb (EventoResponse.status e) "ABERTO"
  && (systimestamp <? EventoResponse.data_limite e).

(** The slices an order request asks for. *)
Definition pedacos_pedidos (p : PedidoCreate.t) : Z :=
  sumZ (map ItemPedidoCreate.quantidade (PedidoCreate.itens p)).

(** * Properties *)

Import RoutesEventos.

(** ** Facts about the relational operators *)

Section SqlFacts.
Context {A : Type}.
Implicit Types (p : A -> bool) (t : list A) (key : A -> Z).

Lemma fetchone_where_None p t :
  Sql.fetchone (Sql.where_ p t) = None <-> forall x, In x t -> p x = false.
Proof.
  unfold Sql.fetchone, Sql.where_.
  induction t as [|a t IH]; simpl.
  - split; [intros _ x [] | reflexivity].
  - destruct (p a) eqn:Ha; simpl.
    + split; [discriminate|].
      intros H. specialize (H a (or_introl eq_refl)). congruence.
    + rewrite IH. split.
      * intros H x [<-|Hx]; auto.
      * intros H x Hx. apply H. now right.
Qed.

Lemma fetchone_where_Some p t x :
  Sql.fetchone (Sql.where_ p t) = Some x -> In x t /\ p x = true.
Proof.
  unfold Sql.fetchone, Sql.where_.
  destruct (filter p t) as [|y l] eqn:E; simpl; [discriminate|].
  intros [= ->]. apply filter_In. rewrite E. now left.
Qed.

Lemma fetchone_where_app_fresh p t x :
  (forall y, In y t -> p y = false) -> p x = true ->
  Sql.fetchone (Sql.where_ p (t ++ [x])) = Some x.
Proof.
  intros Hfresh Hx. unfold Sql.fetchone, Sql.where_.
  rewrite filter_app. simpl. rewrite Hx.
  assert (E : filter p t = []).
  { induction t as [|a t IH]; simpl; [reflexivity|].
    rewrite (Hfresh a (or_introl eq_refl)). apply IH.
    intros y Hy. apply Hfresh. now right. }
  now rewrite E.
Qed.

Lemma where_none_nil p t :
  (forall y, In y t -> p y = false) -> Sql.where_ p t = [].
Proof.
  unfold Sql.where_. induction t as [|a t IH]; simpl; intros H; [reflexivity|].
  rewrite (H a (or_introl eq_refl)). apply IH. intros y Hy. apply H. now right.
Qed.

Lemma where_all_id p t :
  (forall y, In y t -> p y = true) -> Sql.where_ p t = t.
Proof.
  unfold Sql.where_. induction t as [|a t IH]; simpl; intros H; [reflexivity|].
  rewrite (H a (or_introl eq_refl)). f_equal. apply IH.
  intros y Hy. apply H. now right.
Qed.

(** The first row of [insert_desc] is the new row or the old first row,
    whichever has the larger key. *)
Lemma insert_desc_head key x l :
  exists h rest, Sql.insert_desc key x l = h :: rest
    /\ (h = x \/ exists rest', l = h :: rest')
    /\ key x <= key h
    /\ (forall h' rest', l = h' :: rest' -> key h' <= key h).
Proof.
  destruct l as [|y l']; simpl.
  - exists x, []. repeat split; auto; try lia. intros; discriminate.
  - destruct (Z.leb_spec (key y) (key x)).
    + exists x, (y :: l'). repeat split; auto; try lia.
      intros h' rest' [= <- _]. assumption.
    + exists y, (Sql.insert_desc key x l'). repeat split; try lia.
      * right. now exists l'.
      * intros h' rest' [= <- _]. lia.
Qed.

(** [ORDER BY key DESC FETCH FIRST 1 ROWS ONLY] yields a row of the
    table whose key no other row exceeds; it yields nothing only for an
    empty table. *)
Lemma order_by_desc_head key t :
  match Sql.order_by_desc key t with
  | [] => t = []
  | h :: _ => In h t /\ forall x, In x t -> key x <= key h
  end.
Proof.
  induction t as [|a t IH]; simpl; [reflexivity|].
  destruct (insert_desc_head key a (Sql.order_by_desc key t))
    as (h & rest & -> & Hh & Hge & Hold).
  destruct (Sql.order_by_desc key t) as [|h0 l0] eqn:E.
  - subst t. destruct Hh as [->|(r & Hr)]; [|discriminate].
    split; [now left|]. intros x [<-|[]]. lia.
  - destruct IH as [Hin Hmax].
    specialize (Hold h0 l0 eq_refl). split.
    + destruct Hh as [->|(r & [= -> _])]; [now left | now right].
    + intros x [<-|Hx]; [assumption|]. specialize (Hmax x Hx). lia.
Qed.
End SqlFacts.

(** ** The active event *)

Lemma ativo_where_true systimestamp e :
  ativo_where systimestamp e = true <->
  eventos.status e = "ABERTO" /\ systimestamp < eventos.data_limite e.
Proof.
  unfold ativo_where. rewrite andb_true_iff, String.eqb_eq, Z.ltb_lt. reflexivity.
Qed.

(** C3: [obter_evento_ativo] leaves the store as it is; the event it
    answers with has status ABERTO and a deadline strictly after the
    current instant, it carries the id, date, status, deadline and creation
    timestamp of a stored event, and no stored event that is ABERTO with
    its deadline in the future has a later event date than the answer; its
    only failure is 404, raised exactly when no stored event is ABERTO
    with its deadline in the future. *)
Theorem obter_evento_ativo_correct
    (systimestamp : Z) (current_user : CurrentUser) (db : Database) :
  snd (obter_evento_ativo systimestamp current_user db) = db /\
  match fst (obter_evento_ativo systimestamp current_user db) with
  | Success code body =>
      code = 200 /\
      EventoResponse.status body = "ABERTO" /\
      systimestamp < EventoResponse.data_limite body /\
      EventoResponse.nome body = None /\
      (forall r', In r' (tbl_eventos db) ->
         eventos.status r' = "ABERTO" ->
         systimestamp < eventos.data_limite r' ->
         eventos.data_evento r' <= EventoResponse.data_evento body) /\
      exists r, In r (tbl_eventos db) /\ body = EventoResponse_of r
        /\ EventoResponse.id body = eventos.id r
        /\ EventoResponse.data_evento body = eventos.data_evento r
        /\ EventoResponse.status body = eventos.status r
        /\ EventoResponse.data_limite body = eventos.data_limite r
        /\ EventoResponse.data_criacao body = eventos.data_criacao r
        /\ eventos.status r = "ABERTO"
        /\ systimestamp < eventos.data_limite r
        /\ forall r', In r' (tbl_eventos db) ->
             eventos.status r' = "ABERTO" ->
             systimestamp < eventos.data_limite r' ->
             eventos.data_evento r' <= eventos.data_evento r
  | HTTPException code detail =>
      code = 404 /\ detail = "Não há evento ativo no momento" /\
      forall r', In r' (tbl_eventos db) ->
        ~ (eventos.status r' = "ABERTO" /\ systimestamp < eventos.data_limite r')
  end.
Proof.
  unfold obter_evento_ativo, endpoint, bind, query, ativo_query. simpl.
  pose proof (order_by_desc_head eventos.data_evento
                (Sql.where_ (ativo_where systimestamp) (tbl_eventos db))) as H.
  destruct (Sql.order_by_desc eventos.data_evento
              (Sql.where_ (ativo_where systimestamp) (tbl_eventos db)))
    as [|h l] eqn:E; simpl.
  - split; [reflexivity|]. split; [reflexivity|]. split; [reflexivity|].
    intros r' Hin Hq. apply ativo_where_true in Hq.
    assert (Hr : In r' (Sql.where_ (ativo_where systimestamp) (tbl_eventos db)))
      by (apply filter_In; auto).
    rewrite H in Hr. destruct Hr.
  - split; [reflexivity|]. split; [reflexivity|].
    destruct H as [Hin Hmax]. apply filter_In in Hin as [Hin Hq].
    apply ativo_where_true in Hq as [Hs Hd].
    assert (Hlast : forall r', In r' (tbl_eventos db) ->
              eventos.status r' = "ABERTO" ->
              systimestamp < eventos.data_limite r' ->
              eventos.data_evento r' <= eventos.data_evento h).
    { intros r' Hr' Hs' Hd'. apply Hmax. apply filter_In. split; [assumption|].
      apply ativo_where_true. auto. }
    cbn [EventoResponse_of EventoResponse.status EventoResponse.data_limite
         EventoResponse.nome EventoResponse.data_evento EventoResponse.id
         EventoResponse.data_criacao].
    split; [exact Hs|]. split; [exact Hd|]. split; [reflexivity|].
    split; [exact Hlast|].
    exists h. repeat split; auto.
Qed.

(** ** Deleting an event *)

Lemma delete_evento_absent evento_id db :
  (forall e, In e (tbl_eventos db) -> eventos.id e <> evento_id) ->
  delete_evento evento_id db = (db, 0).
Proof.
  intros Habs. unfold delete_evento.
  rewrite where_all_id, where_none_nil.
  - destruct db; reflexivity.
  - intros y Hy. apply Z.eqb_neq. now apply Habs.
  - intros y Hy. apply negb_true_iff, Z.eqb_neq. now apply Habs.
Qed.

Lemma delete_evento_rowcount evento_id db e :
  In e (tbl_eventos db) -> eventos.id e = evento_id ->
  0 < snd (delete_evento evento_id db).
Proof.
  intros Hin Hid. unfold delete_evento, Sql.count, Sql.where_. simpl.
  assert (H : In e (filter (fun e0 => eventos.id e0 =? evento_id) (tbl_eventos db)))
    by (apply filter_In; split; [assumption | now apply Z.eqb_eq]).
  destruct (filter _ (tbl_eventos db)); [destruct H | simpl; lia].
Qed.

(** C4: [deletar_evento] answers 204 and removes the event's row, and
    nothing else, when the event exists and no order references it; it
    answers 400 with the number of referencing orders in the message and
    leaves the store as it is when at least one order references the
    event; and, in a store that respects the foreign key of orders to
    events, it answers 404 when no event has the id. *)
Theorem deletar_evento_correct
    (evento_id : Z) (current_user : CurrentUser) (db : Database) :
  let n := Z.of_nat (List.length (pedidos_do_evento evento_id db)) in
  let existe := exists e, In e (tbl_eventos db) /\ eventos.id e = evento_id in
  (existe -> n = 0 ->
     exists db', deletar_evento evento_id current_user db = (Success 204 tt, db')
       /\ (forall e, In e (tbl_eventos db') <->
                     In e (tbl_eventos db) /\ eventos.id e <> evento_id)
       /\ tbl_pedidos db' = tbl_pedidos db
       /\ tbl_itens_pedido db' = tbl_itens_pedido db
       /\ tbl_usuarios db' = tbl_usuarios db
       /\ tbl_sabores db' = tbl_sabores db)
  /\ (1 <= n ->
      deletar_evento evento_id current_user db =
        (HTTPException 400
           ("Não é possível deletar evento com " ++ str n
            ++ " pedido(s). Delete os pedidos primeiro."), db))
  /\ (fk_pedidos_eventos db -> ~ existe ->
      deletar_evento evento_id current_user db =
        (HTTPException 404 "Evento não encontrado", db)).
Proof.
  intros n existe.
  assert (Hn : count_pedidos evento_id db = n) by reflexivity.
  unfold deletar_evento, endpoint, bind, query, execute, raise, ret.
  rewrite Hn. split; [|split].
  - intros (e & Hin & Hid) H0. rewrite H0.
    change (0 <? 0) with false. cbv beta iota.
    pose proof (delete_evento_rowcount evento_id db e Hin Hid) as Hrc.
    destruct (delete_evento evento_id db) as [db' rc] eqn:Ed. simpl in Hrc.
    destruct (Z.eqb_spec rc 0); [lia|].
    exists db'. split; [reflexivity|]. clear Hrc.
    unfold delete_evento in Ed. injection Ed as <- _. simpl.
    split; [|repeat split; reflexivity].
    intros e'. unfold Sql.where_. rewrite filter_In, negb_true_iff, Z.eqb_neq.
    reflexivity.
  - intros Hpos. destruct (Z.ltb_spec 0 n); [reflexivity | lia].
  - intros Hfk Hne.
    assert (Habs : forall e, In e (tbl_eventos db) -> eventos.id e <> evento_id).
    { intros e Hin Hid. apply Hne. now exists e. }
    assert (H0 : n = 0).
    { subst n. unfold pedidos_do_evento.
      destruct (filter _ (tbl_pedidos db)) as [|p l] eqn:E; [reflexivity|].
      assert (Hp : In p (filter (fun p => pedidos.evento_id p =? evento_id)
                                (tbl_pedidos db))) by (rewrite E; now left).
      apply filter_In in Hp as [Hp Hid]. apply Z.eqb_eq in Hid.
      destruct (Hfk p Hp) as (e & He & Heq). exfalso.
      apply (Habs e He). congruence. }
    rewrite H0. change (0 <? 0) with false. cbv beta iota.
    rewrite (delete_evento_absent evento_id db Habs). reflexivity.
Qed.

(** ** Creating an event *)

(** C5: [criar_evento] answers 400 and leaves the store as it is when an
    event with the requested date is stored; otherwise it answers 201, adds
    exactly one event row, and both that row and the returned event carry
    the requested date and deadline and the status ABERTO, whatever the
    request and the caller are. *)
Theorem criar_evento_correct
    (new_id : Z) (criacao : option Z) (evento : EventoCreate.t)
    (current_user : CurrentUser) (db : Database) :
  ((exists e, In e (tbl_eventos db)
              /\ eventos.data_evento e = EventoCreate.data_evento evento) ->
   criar_evento new_id criacao evento current_user db =
     (HTTPException 400 "Já existe um evento para esta data", db))
  /\ ((forall e, In e (tbl_eventos db) ->
                 eventos.data_evento e <> EventoCreate.data_evento evento) ->
      exists body db',
        criar_evento new_id criacao evento current_user db = (Success 201 body, db')
        /\ EventoResponse.status body = "ABERTO"
        /\ EventoResponse.data_evento body = EventoCreate.data_evento evento
        /\ EventoResponse.data_limite body = EventoCreate.data_limite evento
        /\ tbl_eventos db' =
             (tbl_eventos db
              ++ [eventos.mk (EventoResponse.id body)
                    (EventoCreate.data_evento evento) "ABERTO"
                    (EventoCreate.data_limite evento)
                    (EventoResponse.data_criacao body)])%list
        /\ tbl_pedidos db' = tbl_pedidos db
        /\ tbl_itens_pedido db' = tbl_itens_pedido db
        /\ tbl_usuarios db' = tbl_usuarios db
        /\ tbl_sabores db' = tbl_sabores db).
Proof.
  unfold criar_evento, endpoint, bind, query, execute, raise, ret.
  split.
  - intros (e & Hin & Hd).
    destruct (select_evento_por_data (EventoCreate.data_evento evento) db)
      as [r|] eqn:E; [reflexivity|].
    unfold select_evento_por_data in E.
    rewrite fetchone_where_None in E. specialize (E e Hin).
    apply Z.eqb_neq in E. contradiction.
  - intros Hfree.
    assert (Hnone : forall y, In y (tbl_eventos db) ->
              (eventos.data_evento y =? EventoCreate.data_evento evento) = false).
    { intros y Hy. apply Z.eqb_neq. now apply Hfree. }
    assert (E : select_evento_por_data (EventoCreate.data_evento evento) db = None).
    { unfold select_evento_por_data. now apply fetchone_where_None. }
    rewrite E. unfold insert_evento. cbv beta iota.
    unfold select_evento_por_data at 1. unfold with_eventos at 1.
    cbn [tbl_eventos].
    rewrite fetchone_where_app_fresh;
      [| assumption | cbn [eventos.data_evento]; apply Z.eqb_refl].
    eexists. eexists. split; [reflexivity|].
    cbn. repeat split; reflexivity.
Qed.

(** ** Updating an event *)

Lemma EventoUpdate_valid_iff (evento : EventoUpdate.t) :
  EventoUpdate.valid evento = true <->
  forall s, EventoUpdate.status evento = Some s -> status_permitido s.
Proof.
  unfold EventoUpdate.valid, status_permitido, EventoUpdate.status_pattern.
  destruct (EventoUpdate.status evento) as [s|]; simpl.
  - rewrite !orb_true_iff, !String.eqb_eq. split.
    + intros H s' [= <-]. intuition discriminate.
    + intros H. specialize (H s eq_refl). tauto.
  - split; [intros _ s; discriminate | reflexivity].
Qed.

Lemma apply_updates_campos (evento : EventoUpdate.t) (e : eventos.row) :
  campos_atualizados evento e (apply_updates (updates_of evento) e).
Proof.
  unfold campos_atualizados, updates_of, apply_updates.
  destruct evento as [[s|] [d|]]; simpl; repeat split; reflexivity.
Qed.

Lemma select_evento_after_update
    (f : eventos.row -> eventos.row) (evento_id : Z) (t : list eventos.row) :
  (forall e, eventos.id (f e) = eventos.id e) ->
  Sql.fetchone
    (Sql.where_ (fun e => eventos.id e =? evento_id)
       (map (fun e => if eventos.id e =? evento_id then f e else e) t))
  = option_map f
      (Sql.fetchone (Sql.where_ (fun e => eventos.id e =? evento_id) t)).
Proof.
  intros Hid. unfold Sql.fetchone, Sql.where_.
  induction t as [|a t IH]; simpl; [reflexivity|].
  destruct (eventos.id a =? evento_id) eqn:Ea.
  - rewrite Hid, Ea. reflexivity.
  - rewrite Ea. exact IH.
Qed.

(** C6: a PUT whose status is not one of ABERTO, FECHADO, FINALIZADO is
    refused before the handler runs.  For a body that passes: the answer
    is 404 when no event has the id, and 400 when the event exists and
    neither status nor deadline is provided, the store being left as it is
    in both cases; otherwise the answer is 200, every event row with the id
    gets the provided fields and keeps id, event date, creation timestamp
    and any field that was not provided, every other row and every other
    table is unchanged, and the returned event is the updated row. *)
Theorem atualizar_evento_correct
    (evento_id : Z) (evento : EventoUpdate.t) (current_user : CurrentUser)
    (db : Database) :
  let existe := exists e, In e (tbl_eventos db) /\ eventos.id e = evento_id in
  let permitido :=
    forall s, EventoUpdate.status evento = Some s -> status_permitido s in
  (~ permitido ->
   put_evento evento_id evento current_user db = (RequestValidationError, db))
  /\ (permitido -> ~ existe ->
      put_evento evento_id evento current_user db =
        (HTTPException 404 "Evento não encontrado", db))
  /\ (permitido -> existe ->
      EventoUpdate.status evento = None ->
      EventoUpdate.data_limite evento = None ->
      put_evento evento_id evento current_user db =
        (HTTPException 400 "Nenhum campo para atualizar", db))
  /\ (permitido -> existe ->
      EventoUpdate.status evento <> None
      \/ EventoUpdate.data_limite evento <> None ->
      exists body db' old new,
        put_evento evento_id evento current_user db = (Success 200 body, db')
        /\ In old (tbl_eventos db) /\ eventos.id old = evento_id
        /\ campos_atualizados evento old new
        /\ In new (tbl_eventos db')
        /\ body = EventoResponse_of new
        /\ Forall2 (fun e e' =>
                      if eventos.id e =? evento_id
                      then campos_atualizados evento e e'
                      else e' = e)
                   (tbl_eventos db) (tbl_eventos db')
        /\ tbl_pedidos db' = tbl_pedidos db
        /\ tbl_itens_pedido db' = tbl_itens_pedido db
        /\ tbl_usuarios db' = tbl_usuarios db
        /\ tbl_sabores db' = tbl_sabores db).
Proof.
  intros existe permitido.
  unfold put_evento, validated.
  assert (Hex : existe <-> exists old, select_evento evento_id db = Some old).
  { unfold existe, select_evento. split.
    - intros (e & Hin & Hid).
      destruct (Sql.fetchone _) as [old|] eqn:E; [now exists old|].
      rewrite fetchone_where_None in E. specialize (E e Hin).
      apply Z.eqb_neq in E. contradiction.
    - intros (old & E). apply fetchone_where_Some in E as [Hin Hid].
      exists old. split; [assumption | now apply Z.eqb_eq]. }
  split; [|split; [|split]].
  - intros Hbad. destruct (EventoUpdate.valid evento) eqn:V; [|reflexivity].
    exfalso. apply Hbad. unfold permitido.
    now apply (proj1 (EventoUpdate_valid_iff evento)).
  - intros Hok Hne. apply (proj2 (EventoUpdate_valid_iff evento)) in Hok.
    rewrite Hok.
    unfold atualizar_evento, endpoint, bind, query, raise.
    destruct (select_evento evento_id db) as [old|] eqn:E; [|reflexivity].
    exfalso. apply Hne, Hex. now exists old.
  - intros Hok Hexi Hs Hd. apply (proj2 (EventoUpdate_valid_iff evento)) in Hok.
    rewrite Hok.
    apply Hex in Hexi as (old & E).
    unfold atualizar_evento, endpoint, bind, query, raise.
    rewrite E. unfold updates_of. rewrite Hs, Hd. reflexivity.
  - intros Hok Hexi Hsome. apply (proj2 (EventoUpdate_valid_iff evento)) in Hok.
    rewrite Hok.
    apply Hex in Hexi as (old & E).
    unfold atualizar_evento, endpoint, bind, query, raise, execute, ret.
    rewrite E.
    assert (Hups : exists f fs, updates_of evento = f :: fs).
    { unfold updates_of.
      destruct (EventoUpdate.status evento), (EventoUpdate.data_limite evento);
        simpl; eauto.
      destruct Hsome; congruence. }
    destruct Hups as (f & fs & Hups). rewrite Hups. rewrite <- Hups.
    unfold update_evento. cbv beta iota.
    unfold select_evento at 1. unfold with_eventos at 1. cbn [tbl_eventos].
    rewrite select_evento_after_update
      by (intros e; apply (apply_updates_campos evento e)).
    unfold select_evento in E. rewrite E. cbn [option_map subscript_row].
    apply fetchone_where_Some in E as [Hin Hid]. apply Z.eqb_eq in Hid.
    exists (EventoResponse_of (apply_updates (updates_of evento) old)).
    eexists. exists old, (apply_updates (updates_of evento) old).
    split; [reflexivity|]. cbn [tbl_eventos with_eventos tbl_pedidos
      tbl_itens_pedido tbl_usuarios tbl_sabores].
    split; [assumption|]. split; [assumption|].
    split; [apply apply_updates_campos|].
    split.
    { apply in_map_iff. exists old. split; [|assumption].
      apply Z.eqb_eq in Hid. now rewrite Hid. }
    split; [reflexivity|].
    split; [|repeat split; reflexivity].
    clear. induction (tbl_eventos db) as [|a t IH]; simpl; constructor; auto.
    destruct (eventos.id a =? evento_id); [apply apply_updates_campos | reflexivity].
Qed.

(** ** The summary of an event *)

Section StatsFacts.
Variable evento_id : Z.

Let q := itens_pedido.quantidade.
Let on_ := stats_on.
Let do_evento := stats_where evento_id.
Let linhas_de := Sql.left_join_row stats_on.

Lemma sum_Z_default l :
  match Sql.sum_Z l with Some s => s | None => 0 end = sum_some l.
Proof.
  induction l as [|[v|] l IH]; simpl; [reflexivity | | exact IH].
  now rewrite IH.
Qed.

Lemma int_if_sum_Z l : int_if (Sql.sum_Z l) = sum_some l.
Proof.
  rewrite <- sum_Z_default. unfold int_if.
  destruct (Sql.sum_Z l) as [v|]; [|reflexivity].
  destruct (Z.eqb_spec v 0); congruence.
Qed.

Lemma sum_some_app l1 l2 : sum_some (l1 ++ l2) = sum_some l1 + sum_some l2.
Proof.
  induction l1 as [|[v|] l1 IH]; simpl; [reflexivity | rewrite IH; lia | exact IH].
Qed.

Lemma filter_const {A} (f : A -> bool) (c : bool) (l : list A) :
  (forall x, In x l -> f x = c) -> filter f l = if c then l else [].
Proof.
  intros H. induction l as [|a l IH]; simpl.
  - now destruct c.
  - rewrite (H a (or_introl eq_refl)), IH by (intros x Hx; apply H; now right).
    now destruct c.
Qed.

Lemma linhas_de_fst I p r : In r (linhas_de I p) -> fst r = p.
Proof.
  unfold linhas_de, Sql.left_join_row. destruct (filter _ I) as [|m ms].
  - intros [<-|[]]. reflexivity.
  - intros H. apply in_map_iff in H as (b & <- & _). reflexivity.
Qed.

Lemma filter_linhas_de I p :
  filter do_evento (linhas_de I p)
  = if pedidos.evento_id p =? evento_id then linhas_de I p else [].
Proof.
  apply filter_const. intros r Hr. unfold do_evento, stats_where.
  now rewrite (linhas_de_fst I p r Hr).
Qed.

Lemma sum_linhas_de I p :
  sum_some (map (fun r => option_map q (snd r)) (linhas_de I p))
  = sumZ (map q (filter (on_ p) I)).
Proof.
  unfold linhas_de, Sql.left_join_row, on_.
  destruct (filter (stats_on p) I) as [|m ms]; [reflexivity|].
  generalize (m :: ms). intros l.
  induction l as [|a l IH]; simpl; [reflexivity | now rewrite IH].
Qed.

Lemma sumZ_filter_orb {A} (w : A -> Z) (f g : A -> bool) (l : list A) :
  (forall x, In x l -> f x = true -> g x = false) ->
  sumZ (map w (filter (fun x => f x || g x) l))
  = sumZ (map w (filter f l)) + sumZ (map w (filter g l)).
Proof.
  intros H. induction l as [|a l IH]; simpl; [reflexivity|].
  assert (IH' := IH (fun x Hx => H x (or_intror Hx))).
  pose proof (H a (or_introl eq_refl)) as Ha.
  destruct (f a) eqn:Fa, (g a) eqn:Ga; simpl; rewrite ?IH';
    try lia; specialize (Ha eq_refl); discriminate.
Qed.

(** Under the primary key of [pedidos], the quantities the join lists
    for the orders of the event add up to the slices of the event: each
    line item meets exactly one order. *)
Lemma sum_quantidade_join (P : list pedidos.row) (I : list itens_pedido.row) :
  NoDup (map pedidos.id P) ->
  sum_some (map (fun r => option_map q (snd r))
              (filter do_evento (flat_map (linhas_de I) P)))
  = sumZ (map q
            (filter (fun ip =>
                       existsb (fun p => on_ p ip
                                         && (pedidos.evento_id p =? evento_id)) P)
                    I)).
Proof.
  induction P as [|p P IH]; intros Hnd.
  - simpl. rewrite (filter_const _ false I) by reflexivity. reflexivity.
  - inversion Hnd as [|? ? Hnotin Hnd']; subst.
    cbn [flat_map existsb]. rewrite filter_app, map_app, sum_some_app.
    rewrite (IH Hnd'), filter_linhas_de.
    rewrite sumZ_filter_orb.
    + f_equal. destruct (pedidos.evento_id p =? evento_id).
      * rewrite sum_linhas_de. do 2 f_equal.
        apply filter_ext. intros ip. now rewrite andb_true_r.
      * rewrite (filter_const _ false I); [reflexivity|].
        intros ip _. apply andb_false_r.
    + intros ip _ Hp. apply andb_true_iff in Hp as [Hp _].
      unfold on_, stats_on in Hp. apply Z.eqb_eq in Hp.
      destruct (existsb _ P) eqn:E; [|reflexivity].
      apply existsb_exists in E as (p' & Hin & Hp').
      apply andb_true_iff in Hp' as [Hp' _]. unfold on_, stats_on in Hp'.
      apply Z.eqb_eq in Hp'. exfalso. apply Hnotin.
      rewrite Hp, <- Hp'. now apply in_map.
Qed.

(** No order of the event, no row in the join. *)
Lemma stats_rows_nil db :
  pedidos_do_evento evento_id db = [] -> stats_rows evento_id db = [].
Proof.
  unfold pedidos_do_evento, stats_rows, Sql.where_, Sql.left_join.
  fold do_evento. fold linhas_de.
  induction (tbl_pedidos db) as [|p P IH]; simpl; [reflexivity|].
  rewrite filter_app, filter_linhas_de.
  destruct (pedidos.evento_id p =? evento_id); [discriminate|]. exact IH.
Qed.
End StatsFacts.

Lemma select_evento_existe evento_id db :
  (exists e, In e (tbl_eventos db) /\ eventos.id e = evento_id) ->
  exists ev, select_evento evento_id db = Some ev
             /\ In ev (tbl_eventos db) /\ eventos.id ev = evento_id.
Proof.
  intros (e & Hin & Hid). unfold select_evento.
  destruct (Sql.fetchone _) as [ev|] eqn:E.
  - exists ev. split; [reflexivity|].
    apply fetchone_where_Some in E as [H1 H2]. apply Z.eqb_eq in H2. auto.
  - rewrite fetchone_where_None in E. specialize (E e Hin).
    apply Z.eqb_neq in E. contradiction.
Qed.

(** C2: for a stored event, [obter_resumo_evento] answers 200 and leaves
    the store as it is.  Under the primary key of [pedidos], its
    [total_pizzas] is the floor of S/8, S being the slices of the event
    summed over its line items of all flavors: 8 * total_pizzas <= S <
    8 * total_pizzas + 8.  When no order references the event,
    [total_participantes], [total_pedidos], [total_pizzas] and
    [valor_total] are all zero. *)
Theorem obter_resumo_evento_total_pizzas
    (evento_id : Z) (current_user : CurrentUser) (db : Database) :
  (exists e, In e (tbl_eventos db) /\ eventos.id e = evento_id) ->
  exists body,
    obter_resumo_evento evento_id current_user db = (Success 200 body, db)
    /\ (pk_pedidos db ->
        let S := total_pedacos_do_evento evento_id db in
        ResumoEvento.total_pizzas body = S / 8
        /\ 8 * ResumoEvento.total_pizzas body <= S
           < 8 * ResumoEvento.total_pizzas body + 8)
    /\ (pedidos_do_evento evento_id db = [] ->
        ResumoEvento.total_participantes body = 0
        /\ ResumoEvento.total_pedidos body = 0
        /\ ResumoEvento.total_pizzas body = 0
        /\ ResumoEvento.valor_total body = 0%Q).
Proof.
  intros Hex. apply select_evento_existe in Hex as (ev & E & _ & _).
  unfold obter_resumo_evento, endpoint, bind, query, ret. rewrite E.
  unfold stats_query. cbv beta iota zeta.
  eexists. split; [reflexivity|].
  cbn [ResumoEvento.total_pizzas ResumoEvento.total_participantes
       ResumoEvento.total_pedidos ResumoEvento.valor_total].
  split.
  - intros Hpk. set (S := total_pedacos_do_evento evento_id db).
    assert (HS : int_if (Sql.sum_Z
                   (map (fun r => option_map itens_pedido.quantidade (snd r))
                        (stats_rows evento_id db))) = S).
    { rewrite int_if_sum_Z. unfold stats_rows, Sql.where_, Sql.left_join.
      rewrite sum_quantidade_join by exact Hpk. reflexivity. }
    rewrite HS. split; [reflexivity|].
    pose proof (Z.div_mod S 8 ltac:(lia)) as Hdm.
    pose proof (Z.mod_pos_bound S 8 ltac:(lia)) as Hb. lia.
  - intros Hnone. rewrite (stats_rows_nil evento_id db Hnone).
    repeat split; reflexivity.
Qed.

(** C1, the divergence of the code, at the example of the spec and at a
    store with one order of two line items: [total_pedidos] counts the rows
    of the join of orders with line items, so an order is counted once per
    line item, and [valor_total] adds an order's total and shipping once
    per line item.  The event of the spec's example has 2 orders worth 67
    and is reported with 3 orders worth 112; the single order worth 45 is
    reported as 2 orders worth 90. *)
Theorem obter_resumo_evento_conta_por_item :
  (exists body,
     obter_resumo_evento 1 Sample.admin Sample.db = (Success 200 body, Sample.db)
     /\ List.length (pedidos_do_evento 1 Sample.db) = 2%nat
     /\ ResumoEvento.total_pedidos body = 3
     /\ valor_dos_pedidos 1 Sample.db = 67%Q
     /\ ResumoEvento.valor_total body = 112%Q
     /\ ResumoEvento.total_participantes body = 2)
  /\ (exists body,
        obter_resumo_evento 1 Sample.admin Sample.db_um_pedido
        = (Success 200 body, Sample.db_um_pedido)
        /\ List.length (pedidos_do_evento 1 Sample.db_um_pedido) = 1%nat
        /\ ResumoEvento.total_pedidos body = 2
        /\ valor_dos_pedidos 1 Sample.db_um_pedido = 45%Q
        /\ ResumoEvento.valor_total body = 90%Q
        /\ ResumoEvento.total_participantes body = 1).
Proof.
  split; eexists; (split; [vm_compute; reflexivity|]); vm_compute;
    repeat split; reflexivity.
Qed.

(** ** Registration and login *)

Section AuthFacts.
Context {helpers : AuthHelpers}.
Import RoutesAuth.

Lemma select_usuario_fresh nome r db :
  (forall u, In u (tbl_usuarios db) -> usuarios.nome_completo u <> nome) ->
  usuarios.nome_completo r = nome ->
  select_usuario nome (with_usuarios (tbl_usuarios db ++ [r]) db) = Some r.
Proof.
  intros Hfresh Hr. unfold select_usuario, with_usuarios. cbn [tbl_usuarios].
  apply fetchone_where_app_fresh.
  - intros y Hy. apply String.eqb_neq. now apply Hfresh.
  - now apply String.eqb_eq.
Qed.

Lemma register_duplicate new_id ativo cadastro user db :
  (exists u, In u (tbl_usuarios db)
             /\ usuarios.nome_completo u = UsuarioCreate.nome_completo user) ->
  register new_id ativo cadastro user db
  = (HTTPException 400 "Usuário já existe com este nome", db).
Proof.
  intros (u & Hin & Hn).
  unfold register, endpoint, bind, query, raise.
  destruct (select_usuario (UsuarioCreate.nome_completo user) db) eqn:E;
    [reflexivity|].
  unfold select_usuario in E. rewrite fetchone_where_None in E.
  specialize (E u Hin). apply String.eqb_neq in E. contradiction.
Qed.

Lemma register_fresh new_id ativo cadastro user db :
  (forall u, In u (tbl_usuarios db) ->
             usuarios.nome_completo u <> UsuarioCreate.nome_completo user) ->
  register new_id ativo cadastro user db
  = (Success 201
       (UsuarioResponse_of (usuario_registrado new_id ativo cadastro user)),
     with_usuarios
       (tbl_usuarios db ++ [usuario_registrado new_id ativo cadastro user]) db).
Proof.
  intros Hfresh.
  unfold register, endpoint, bind, query, execute, ret.
  assert (E : select_usuario (UsuarioCreate.nome_completo user) db = None).
  { unfold select_usuario. apply fetchone_where_None.
    intros u Hu. apply String.eqb_neq. now apply Hfresh. }
  rewrite E. unfold insert_usuario. cbv beta iota.
  fold (usuario_registrado new_id ativo cadastro user).
  rewrite (select_usuario_fresh (UsuarioCreate.nome_completo user)
             (usuario_registrado new_id ativo cadastro user) db Hfresh eq_refl).
  reflexivity.
Qed.
Lemma login_registered new_id ativo cadastro user senha db :
  (forall u, In u (tbl_usuarios db) ->
             usuarios.nome_completo u <> UsuarioCreate.nome_completo user) ->
  let r := usuario_registrado new_id ativo cadastro user in
  let db' := with_usuarios (tbl_usuarios db ++ [r]) db in
  authenticate_user (UsuarioCreate.nome_completo user) senha db'
  = if verify_password senha (get_password_hash (UsuarioCreate.senha user))
    then Some (mkCurrentUser (usuarios.id r) (usuarios.nome_completo r)
                 (usuarios.setor r) (bool_of (usuarios.is_admin r))
                 (bool_of (usuarios.ativo r)) (usuarios.data_cadastro r))
    else None.
Proof.
  intros Hfresh r db'. unfold authenticate_user. subst db'.
  rewrite (select_usuario_fresh (UsuarioCreate.nome_completo user) r db
             Hfresh eq_refl).
  reflexivity.
Qed.

(** C8: a registration whose name a stored user holds is answered with
    400 and stores nothing.  A registration with a fresh name is answered
    201 with the data of the new user (the generated id, the name, sector
    and admin flag of the request, the active flag and registration time
    the store gave) and stores one row with that data and the hash of the
    password.  After it: a second registration with that name is answered
    400 and stores nothing; a login with that name and another password is
    answered 401; a login with that name and the registered password is
    answered with a bearer token whose subject is the id of the registered
    user, together with that same user data. *)
Theorem register_login_correct
    (spec : AuthHelpersSpec helpers)
    (new_id ativo : Z) (cadastro : option Z) (user : UsuarioCreate.t)
    (db : Database) :
  ((exists u, In u (tbl_usuarios db)
              /\ usuarios.nome_completo u = UsuarioCreate.nome_completo user) ->
   register new_id ativo cadastro user db
   = (HTTPException 400 "Usuário já existe com este nome", db))
  /\ ((forall u, In u (tbl_usuarios db) ->
                 usuarios.nome_completo u <> UsuarioCreate.nome_completo user) ->
      exists created db',
        register new_id ativo cadastro user db = (Success 201 created, db')
        /\ UsuarioResponse.id created = new_id
        /\ UsuarioResponse.nome_completo created
           = UsuarioCreate.nome_completo user
        /\ UsuarioResponse.setor created = UsuarioCreate.setor user
        /\ UsuarioResponse.is_admin created = UsuarioCreate.is_admin user
        /\ UsuarioResponse.ativo created = negb (ativo =? 0)
        /\ UsuarioResponse.data_cadastro created = cadastro
        /\ tbl_usuarios db' =
             (tbl_usuarios db
              ++ [usuarios.mk new_id (UsuarioCreate.nome_completo user)
                    (get_password_hash (UsuarioCreate.senha user))
                    (UsuarioCreate.setor user)
                    (if UsuarioCreate.is_admin user then 1 else 0)
                    ativo cadastro])%list
        /\ (forall new_id2 ativo2 cadastro2 user2,
              UsuarioCreate.nome_completo user2
              = UsuarioCreate.nome_completo user ->
              register new_id2 ativo2 cadastro2 user2 db'
              = (HTTPException 400 "Usuário já existe com este nome", db'))
        /\ (forall senha,
              senha <> UsuarioCreate.senha user ->
              login (UsuarioLogin.mk (UsuarioCreate.nome_completo user) senha) db'
              = (HTTPException 401 "Nome de usuário ou senha incorretos", db'))
        /\ (exists token,
              login (UsuarioLogin.mk (UsuarioCreate.nome_completo user)
                                     (UsuarioCreate.senha user)) db'
              = (Success 200 token, db')
              /\ Token.token_type token = "bearer"
              /\ token_subject (Token.access_token token)
                 = Some (str (UsuarioResponse.id created))
              /\ Token.user token = created
              /\ Token.user token
                 = UsuarioResponse.mk new_id (UsuarioCreate.nome_completo user)
                     (UsuarioCreate.setor user) (UsuarioCreate.is_admin user)
                     (negb (ativo =? 0)) cadastro)).
Proof.
  split; [apply register_duplicate|].
  intros Hfresh. rewrite (register_fresh new_id ativo cadastro user db Hfresh).
  eexists. eexists. split; [reflexivity|].
  split; [reflexivity|]. split; [reflexivity|]. split; [reflexivity|].
  split; [cbn; now destruct (UsuarioCreate.is_admin user)|].
  split; [reflexivity|]. split; [reflexivity|]. split; [reflexivity|].
  split; [|split].
  - intros new_id2 ativo2 cadastro2 user2 Hn. apply register_duplicate.
    exists (usuario_registrado new_id ativo cadastro user).
    cbn [with_usuarios tbl_usuarios]. split.
    + apply in_or_app. right. now left.
    + now rewrite Hn.
  - intros senha Hs. unfold login, endpoint, bind, query, raise.
    cbn [UsuarioLogin.nome_completo UsuarioLogin.senha].
    rewrite (login_registered new_id ativo cadastro user senha db Hfresh).
    destruct (verify_password senha _) eqn:V; [|reflexivity].
    apply verify_own in V. contradiction.
  - unfold login, endpoint, bind, query, ret.
    cbn [UsuarioLogin.nome_completo UsuarioLogin.senha].
    rewrite (login_registered new_id ativo cadastro user _ db Hfresh).
    rewrite verify_hash.
    eexists. split; [reflexivity|].
    cbn [Token.token_type Token.access_token Token.user cu_id].
    split; [reflexivity|]. split; [apply subject_create|].
    split; [reflexivity|].
    cbn. now destruct (UsuarioCreate.is_admin user).
Qed.

(** C9: the registration route takes no credential, only the request
    body, and stores the [is_admin] flag of the body as it is: for a valid
    body with a fresh name it answers 201 and stores a user row whose admin
    column is 1 when the flag is set and 0 when it is not, which the
    response reports; so a body with the flag set creates an administrator.
    The store may hold no user at all, so that no caller can hold a
    token. *)
Theorem register_cria_administrador
    (new_id ativo : Z) (cadastro : option Z) (user : UsuarioCreate.t)
    (db : Database) :
  UsuarioCreate.valid user = true ->
  (forall u, In u (tbl_usuarios db) ->
             usuarios.nome_completo u <> UsuarioCreate.nome_completo user) ->
  exists created db' r,
    post_register new_id ativo cadastro user db = (Success 201 created, db')
    /\ tbl_usuarios db' = (tbl_usuarios db ++ [r])%list
    /\ usuarios.nome_completo r = UsuarioCreate.nome_completo user
    /\ usuarios.is_admin r = (if UsuarioCreate.is_admin user then 1 else 0)
    /\ UsuarioResponse.is_admin created = UsuarioCreate.is_admin user
    /\ UsuarioResponse.id created = usuarios.id r
    /\ (UsuarioCreate.is_admin user = true ->
        usuarios.is_admin r = 1 /\ UsuarioResponse.is_admin created = true).
Proof.
  intros Hvalid Hfresh. unfold post_register, validated. rewrite Hvalid.
  rewrite (register_fresh new_id ativo cadastro user db Hfresh).
  eexists. eexists. exists (usuario_registrado new_id ativo cadastro user).
  split; [reflexivity|]. cbn.
  destruct (UsuarioCreate.is_admin user); repeat split; reflexivity || discriminate.
Qed.
End AuthFacts.

(** ** Validation of an order request *)

Section PedidoFacts.
Import RoutesPedidos.

Lemma ItemPedidoCreate_valid_iff (item : ItemPedidoCreate.t) :
  ItemPedidoCreate.valid item = true
  <-> 1 <= ItemPedidoCreate.quantidade item <= 8.
Proof.
  unfold ItemPedidoCreate.valid. rewrite andb_true_iff, Z.ltb_lt, Z.leb_le. lia.
Qed.

(** [linhas_pedido] only reads the store, and the rows it yields carry the
    quantities of the request's items, one row per item. *)
Lemma linhas_pedido_quantidades (itens : list ItemPedidoCreate.t) :
  forall pedido_id item_id db,
    snd (linhas_pedido pedido_id item_id itens db) = db
    /\ forall linhas,
         fst (linhas_pedido pedido_id item_id itens db) = Return linhas ->
         map itens_pedido.quantidade linhas
         = map ItemPedidoCreate.quantidade itens.
Proof.
  induction itens as [|item rest IH]; intros pedido_id item_id db.
  - split; [reflexivity|]. intros linhas [= <-]. reflexivity.
  - cbn [linhas_pedido]. unfold bind, query, raise, ret.
    destruct (select_sabor (ItemPedidoCreate.sabor_id item) db) as [s|];
      [|split; [reflexivity | discriminate]].
    destruct (sabores.ativo s =? 0); [split; [reflexivity | discriminate]|].
    destruct (IH pedido_id (item_id + 1) db) as [Hdb Hq].
    destruct (linhas_pedido pedido_id (item_id + 1) rest db) as [[ls|c d] db'].
    + simpl in Hdb. subst db'. split; [reflexivity|].
      intros linhas [= <-]. simpl. f_equal. now apply Hq.
    + simpl in Hdb. subst db'. split; [reflexivity | discriminate].
Qed.

(** C7: a request with an item whose quantity is below 1 or above 8 is
    refused by validation, whatever the handler is, and the store is left
    as it is; and every line item that the creation of an order adds to the
    store has a quantity from 1 to 8, so that a store whose line items are
    all in that range stays so. *)
Theorem quantidade_entre_1_e_8
    (systimestamp new_id item_id : Z) (valor_frete : Q)
    (current_user : CurrentUser) (body : PedidoCreate.t) (db : Database) :
  let db' :=
    snd (post_pedido
           (criar_pedido systimestamp new_id item_id valor_frete current_user)
           body db) in
  (forall (A : Type) (handler : PedidoCreate.t -> Database -> Outcome A * Database),
     (exists item, In item (PedidoCreate.itens body)
                   /\ (ItemPedidoCreate.quantidade item < 1
                       \/ 8 < ItemPedidoCreate.quantidade item)) ->
     post_pedido handler body db = (RequestValidationError, db))
  /\ (forall ip, In ip (tbl_itens_pedido db') ->
        In ip (tbl_itens_pedido db) \/ 1 <= itens_pedido.quantidade ip <= 8)
  /\ (Forall (fun ip => 1 <= itens_pedido.quantidade ip <= 8) (tbl_itens_pedido db) ->
      Forall (fun ip => 1 <= itens_pedido.quantidade ip <= 8) (tbl_itens_pedido db')).
Proof.
  intros db'.
  assert (Hadd : forall ip, In ip (tbl_itens_pedido db') ->
            In ip (tbl_itens_pedido db) \/ 1 <= itens_pedido.quantidade ip <= 8).
  { subst db'. unfold post_pedido, validated.
    destruct (PedidoCreate.valid body) eqn:V; [|intros ip H; now left].
    unfold PedidoCreate.valid in V. apply andb_true_iff in V as [_ V].
    rewrite forallb_forall in V.
    unfold criar_pedido, endpoint, bind, query, raise, execute, ret.
    destruct (RoutesEventos.select_evento (PedidoCreate.evento_id body) db)
      as [ev|]; [|intros ip H; now left].
    destruct (ativo_where systimestamp ev); [|intros ip H; now left].
    destruct (linhas_pedido_quantidades (PedidoCreate.itens body) new_id item_id db)
      as [Hdb Hq].
    destruct (linhas_pedido new_id item_id (PedidoCreate.itens body) db)
      as [[ls|c d] db1]; simpl in Hdb; subst db1; [|intros ip H; now left].
    specialize (Hq ls eq_refl).
    unfold insert_pedido. cbn [snd fst tbl_itens_pedido with_itens_pedido].
    intros ip Hin. apply in_app_or in Hin as [Hin|Hin]; [now left | right].
    assert (Hqi : In (itens_pedido.quantidade ip)
                     (map ItemPedidoCreate.quantidade (PedidoCreate.itens body))).
    { rewrite <- Hq. now apply in_map. }
    apply in_map_iff in Hqi as (item & Heq & Hitem).
    rewrite <- Heq. apply ItemPedidoCreate_valid_iff. now apply V. }
  split; [|split].
  - intros A handler (item & Hin & Hbad). unfold post_pedido, validated.
    destruct (PedidoCreate.valid body) eqn:V; [|reflexivity].
    unfold PedidoCreate.valid in V. apply andb_true_iff in V as [_ V].
    rewrite forallb_forall in V. specialize (V item Hin).
    apply ItemPedidoCreate_valid_iff in V. lia.
  - exact Hadd.
  - intros Hall. apply Forall_forall. intros ip Hin.
    destruct (Hadd ip Hin) as [Hold|Hnew]; [|exact Hnew].
    rewrite Forall_forall in Hall. now apply Hall.
Qed.

(** C10: a request whose list of items is empty fails validation although
    all of its items (there is none) are within the quantity bounds; it is
    answered 422 and the handler, whichever it is, does not run, so the
    store is left as it is.  A request that passes validation has at least
    one item. *)
Theorem pedido_sem_itens_rejeitado
    (A : Type) (handler : PedidoCreate.t -> Database -> Outcome A * Database)
    (body : PedidoCreate.t) (db : Database) :
  (PedidoCreate.itens body = [] ->
   forallb ItemPedidoCreate.valid (PedidoCreate.itens body) = true
   /\ PedidoCreate.valid body = false
   /\ post_pedido handler body db = (RequestValidationError, db))
  /\ (PedidoCreate.valid body = true -> PedidoCreate.itens body <> []).
Proof.
  unfold post_pedido, validated, PedidoCreate.valid. split.
  - intros ->. repeat split; reflexivity.
  - destruct (PedidoCreate.itens body); [discriminate | discriminate].
Qed.
End PedidoFacts.

(** ** What the counters of the summary count, in general *)

Section CountFacts.
Variable evento_id : Z.

Let linhas_de := Sql.left_join_row stats_on.

Lemma linhas_de_length (I : list itens_pedido.row) (p : pedidos.row) :
  Z.of_nat (List.length (linhas_de I p))
  = Z.max 1 (Z.of_nat (List.length (filter (stats_on p) I))).
Proof.
  unfold linhas_de, Sql.left_join_row.
  destruct (filter (stats_on p) I) as [|m ms]; [reflexivity|].
  rewrite length_map. simpl List.length. lia.
Qed.

Lemma stats_rows_length (P : list pedidos.row) (I : list itens_pedido.row) :
  Z.of_nat (List.length
              (filter (stats_where evento_id) (flat_map (linhas_de I) P)))
  = sumZ (map (fun p => Z.max 1 (Z.of_nat (List.length (filter (stats_on p) I))))
              (filter (fun p => pedidos.evento_id p =? evento_id) P)).
Proof.
  induction P as [|p P IH]; [reflexivity|].
  cbn [flat_map]. rewrite filter_app, length_app, Nat2Z.inj_add, IH.
  unfold linhas_de at 1. rewrite filter_linhas_de. cbn [filter].
  destruct (pedidos.evento_id p =? evento_id).
  - cbn [map sumZ fold_right]. fold linhas_de. now rewrite linhas_de_length.
  - reflexivity.
Qed.

Lemma stats_rows_usuarios (P : list pedidos.row) (I : list itens_pedido.row) x :
  In x (map (fun r => pedidos.usuario_id (fst r))
            (filter (stats_where evento_id) (flat_map (linhas_de I) P)))
  <-> In x (map pedidos.usuario_id
                (filter (fun p => pedidos.evento_id p =? evento_id) P)).
Proof.
  rewrite !in_map_iff. split.
  - intros (r & <- & Hr). apply filter_In in Hr as [Hr Hw].
    apply in_flat_map in Hr as (p & Hp & Hrp).
    apply linhas_de_fst in Hrp. subst p.
    exists (fst r). split; [reflexivity|]. apply filter_In. now split.
  - intros (p & <- & Hp). apply filter_In in Hp as [Hp He].
    assert (Hne : exists r, In r (linhas_de I p)).
    { unfold linhas_de, Sql.left_join_row.
      destruct (filter (stats_on p) I) as [|m ms]; simpl; eauto. }
    destruct Hne as (r & Hr). pose proof (linhas_de_fst I p r Hr) as Hf.
    exists r. split; [now rewrite Hf|]. apply filter_In. split.
    + apply in_flat_map. now exists p.
    + unfold stats_where. now rewrite Hf.
Qed.

Lemma nodup_length_ext (l1 l2 : list Z) :
  (forall x, In x l1 <-> In x l2) ->
  List.length (nodup Z.eq_dec l1) = List.length (nodup Z.eq_dec l2).
Proof.
  intros H. apply Permutation_length, NoDup_Permutation.
  - apply NoDup_nodup.
  - apply NoDup_nodup.
  - intros x. rewrite !nodup_In. apply H.
Qed.

(** For a stored event, [total_participantes] is the number of distinct
    users among the orders of the event, while [total_pedidos] adds, over
    the orders of the event, the number of line items of the order (one
    for an order without line items). *)
Lemma obter_resumo_evento_contagens
    (current_user : CurrentUser) (db : Database) :
  (exists e, In e (tbl_eventos db) /\ eventos.id e = evento_id) ->
  exists body,
    obter_resumo_evento evento_id current_user db = (Success 200 body, db)
    /\ ResumoEvento.total_participantes body
       = Z.of_nat (List.length
                     (nodup Z.eq_dec
                        (map pedidos.usuario_id (pedidos_do_evento evento_id db))))
    /\ ResumoEvento.total_pedidos body
       = sumZ (map (fun p =>
                      Z.max 1 (Z.of_nat (List.length
                                           (filter (stats_on p)
                                                   (tbl_itens_pedido db)))))
                   (pedidos_do_evento evento_id db)).
Proof.
  intros Hex. apply select_evento_existe in Hex as (ev & E & _ & _).
  unfold obter_resumo_evento, endpoint, bind, query, ret. rewrite E.
  unfold stats_query. cbv beta iota zeta.
  eexists. split; [reflexivity|].
  cbn [ResumoEvento.total_participantes ResumoEvento.total_pedidos].
  assert (Hint : forall n : nat, int_if (Some (Z.of_nat n)) = Z.of_nat n).
  { intros n. unfold int_if. destruct (Z.eqb_spec (Z.of_nat n) 0); congruence. }
  unfold Sql.count_distinct, Sql.count. rewrite !Hint.
  unfold stats_rows, Sql.where_, Sql.left_join, pedidos_do_evento. split.
  - f_equal. apply nodup_length_ext. intros x. apply stats_rows_usuarios.
  - apply stats_rows_length.
Qed.
End CountFacts.

(** ** The theorems at the sample stores *)

Lemma obter_resumo_evento_total_pizzas_witness :
  (exists body,
     obter_resumo_evento 1 Sample.admin Sample.db = (Success 200 body, Sample.db)
     /\ total_pedacos_do_evento 1 Sample.db = 12
     /\ ResumoEvento.total_pizzas body = 1)
  /\ (exists body,
        obter_resumo_evento 2 Sample.admin Sample.db = (Success 200 body, Sample.db)
        /\ ResumoEvento.total_participantes body = 0
        /\ ResumoEvento.total_pedidos body = 0
        /\ ResumoEvento.total_pizzas body = 0
        /\ ResumoEvento.valor_total body = 0%Q).
Proof.
  split.
  - destruct (obter_resumo_evento_total_pizzas 1 Sample.admin Sample.db)
      as (body & E & Hpz & _).
    + exists (eventos.mk 1 100 "ABERTO" 105 None).
      split; [simpl; auto | reflexivity].
    + exists body. split; [exact E|]. split; [reflexivity|].
      destruct Hpz as [Hpz _].
      * unfold pk_pedidos. simpl. repeat constructor; simpl; intuition discriminate.
      * rewrite Hpz. reflexivity.
  - destruct (obter_resumo_evento_total_pizzas 2 Sample.admin Sample.db)
      as (body & E & _ & Hzero).
    + exists (eventos.mk 2 70 "FECHADO" 75 None).
      split; [simpl; auto | reflexivity].
    + exists body. split; [exact E|]. apply Hzero. reflexivity.
Defined.

Lemma deletar_evento_correct_witness :
  (exists db',
     deletar_evento 2 Sample.admin Sample.db = (Success 204 tt, db')
     /\ ~ In (eventos.mk 2 70 "FECHADO" 75 None) (tbl_eventos db')
     /\ In (eventos.mk 1 100 "ABERTO" 105 None) (tbl_eventos db'))
  /\ deletar_evento 1 Sample.admin Sample.db
     = (HTTPException 400
          "Não é possível deletar evento com 2 pedido(s). Delete os pedidos primeiro.",
        Sample.db)
  /\ deletar_evento 9 Sample.admin Sample.db
     = (HTTPException 404 "Evento não encontrado", Sample.db).
Proof.
  split; [|split].
  - destruct (deletar_evento_correct 2 Sample.admin Sample.db) as [H _].
    destruct H as (db' & E & Hrows & _).
    + exists (eventos.mk 2 70 "FECHADO" 75 None).
      split; [simpl; auto | reflexivity].
    + reflexivity.
    + exists db'. split; [exact E|]. split.
      * intros Hin. apply Hrows in Hin as [_ Hid]. apply Hid. reflexivity.
      * apply Hrows. split; [simpl; auto | simpl; lia].
  - destruct (deletar_evento_correct 1 Sample.admin Sample.db) as (_ & H & _).
    apply H. simpl. lia.
  - destruct (deletar_evento_correct 9 Sample.admin Sample.db) as (_ & _ & H).
    apply H.
    + intros p Hin. simpl in Hin.
      destruct Hin as [<-|[<-|[]]];
        (exists (eventos.mk 1 100 "ABERTO" 105 None);
         split; [simpl; auto | reflexivity]).
    + intros (e & Hin & Hid). simpl in Hin.
      destruct Hin as [<-|[<-|[<-|[]]]]; discriminate Hid.
Defined.

Lemma criar_evento_correct_witness :
  criar_evento 4 (Some 90) (EventoCreate.mk 100 99 None) Sample.admin Sample.db
  = (HTTPException 400 "Já existe um evento para esta data", Sample.db)
  /\ (exists body db',
        criar_evento 4 (Some 90) (EventoCreate.mk 160 165 (Some "Junho"))
          Sample.admin Sample.db
        = (Success 201 body, db')
        /\ EventoResponse.status body = "ABERTO").
Proof.
  split.
  - apply (proj1 (criar_evento_correct 4 (Some 90) (EventoCreate.mk 100 99 None)
                    Sample.admin Sample.db)).
    exists (eventos.mk 1 100 "ABERTO" 105 None).
    split; [simpl; auto | reflexivity].
  - destruct (proj2 (criar_evento_correct 4 (Some 90)
                       (EventoCreate.mk 160 165 (Some "Junho"))
                       Sample.admin Sample.db))
      as (body & db' & E & Hs & _).
    + intros e Hin. simpl in Hin.
      destruct Hin as [<-|[<-|[<-|[]]]]; simpl; lia.
    + exists body, db'. split; [exact E | exact Hs].
Defined.

Lemma atualizar_evento_correct_witness :
  put_evento 1 (EventoUpdate.mk (Some "CANCELADO") None) Sample.admin Sample.db
  = (RequestValidationError, Sample.db)
  /\ put_evento 9 (EventoUpdate.mk (Some "FECHADO") None) Sample.admin Sample.db
     = (HTTPException 404 "Evento não encontrado", Sample.db)
  /\ put_evento 1 (EventoUpdate.mk None None) Sample.admin Sample.db
     = (HTTPException 400 "Nenhum campo para atualizar", Sample.db)
  /\ (exists body db',
        put_evento 1 (EventoUpdate.mk (Some "FECHADO") None) Sample.admin Sample.db
        = (Success 200 body, db')
        /\ EventoResponse.status body = "FECHADO"
        /\ EventoResponse.data_limite body = 105
        /\ EventoResponse.data_evento body = 100).
Proof.
  assert (Hex1 : exists e, In e (tbl_eventos Sample.db) /\ eventos.id e = 1).
  { exists (eventos.mk 1 100 "ABERTO" 105 None).
    split; [simpl; auto | reflexivity]. }
  split; [|split; [|split]].
  - apply (proj1 (atualizar_evento_correct 1
                    (EventoUpdate.mk (Some "CANCELADO") None)
                    Sample.admin Sample.db)).
    intros H. specialize (H "CANCELADO" eq_refl).
    destruct H as [H|[H|H]]; discriminate H.
  - apply (proj1 (proj2 (atualizar_evento_correct 9
                           (EventoUpdate.mk (Some "FECHADO") None)
                           Sample.admin Sample.db))).
    + intros s [= <-]. right. left. reflexivity.
    + intros (e & Hin & Hid). simpl in Hin.
      destruct Hin as [<-|[<-|[<-|[]]]]; discriminate Hid.
  - apply (proj1 (proj2 (proj2 (atualizar_evento_correct 1
                                  (EventoUpdate.mk None None)
                                  Sample.admin Sample.db)))).
    + intros s H. discriminate H.
    + exact Hex1.
    + reflexivity.
    + reflexivity.
  - destruct (proj2 (proj2 (proj2 (atualizar_evento_correct 1
                                     (EventoUpdate.mk (Some "FECHADO") None)
                                     Sample.admin Sample.db))))
      as (body & db' & old & new & E & Hold & Hid & Hc & _ & Hbody & _).
    + intros s [= <-]. right. left. reflexivity.
    + exact Hex1.
    + left. discriminate.
    + exists body, db'. split; [exact E|].
      destruct Hc as (_ & Hde & _ & Hst & Hdl). subst body.
      cbn [EventoResponse_of EventoResponse.status EventoResponse.data_limite
           EventoResponse.data_evento].
      rewrite Hst, Hdl, Hde. cbn [EventoUpdate.status EventoUpdate.data_limite].
      simpl in Hold.
      destruct Hold as [<-|[<-|[<-|[]]]]; try discriminate Hid.
      repeat split; reflexivity.
Defined.

Lemma helpers_spec : AuthHelpersSpec Sample.helpers.
Proof.
  constructor.
  - intros senha. simpl. apply String.eqb_refl.
  - intros senha senha' H. simpl in H. apply String.eqb_eq in H. congruence.
  - intros sub expires. reflexivity.
Qed.

Lemma register_login_correct_witness :
  @RoutesAuth.register Sample.helpers 7 1 None
    (UsuarioCreate.mk "Ana Lima" "Vendas" "outra-senha" false) Sample.db
  = (HTTPException 400 "Usuário já existe com este nome", Sample.db)
  /\ (exists created db',
        @RoutesAuth.register Sample.helpers 7 1 None Sample.novo_admin Sample.db
        = (Success 201 created, db')
        /\ @RoutesAuth.register Sample.helpers 8 1 None
             (UsuarioCreate.mk "Bia Souza" "TI" "abcdef" false) db'
           = (HTTPException 400 "Usuário já existe com este nome", db')
        /\ @RoutesAuth.login Sample.helpers
             (UsuarioLogin.mk "Bia Souza" "errada") db'
           = (HTTPException 401 "Nome de usuário ou senha incorretos", db')
        /\ (exists token,
              @RoutesAuth.login Sample.helpers
                (UsuarioLogin.mk "Bia Souza" "s3nh4!") db'
              = (Success 200 token, db')
              /\ @token_subject Sample.helpers (Token.access_token token)
                 = Some "7"
              /\ Token.user token = created
              /\ Token.user token
                 = UsuarioResponse.mk 7 "Bia Souza" "Vendas" true true None)).
Proof.
  split.
  - apply (proj1 (@register_login_correct Sample.helpers helpers_spec 7 1 None
                    (UsuarioCreate.mk "Ana Lima" "Vendas" "outra-senha" false)
                    Sample.db)).
    exists (usuarios.mk 2 "Ana Lima" "h:abc123" "RH" 0 1 None).
    split; [simpl; auto | reflexivity].
  - destruct (proj2 (@register_login_correct Sample.helpers helpers_spec 7 1 None
                       Sample.novo_admin Sample.db))
      as (created & db' & E & Hid & _ & _ & _ & _ & _ & _ & Hdup & Hwrong
          & token & Hl & _ & Hsub & Hu & Hdata).
    + intros u Hin. simpl in Hin.
      destruct Hin as [<-|[<-|[]]]; discriminate.
    + exists created, db'. split; [exact E|]. split; [|split].
      * apply Hdup. reflexivity.
      * apply (Hwrong "errada"). discriminate.
      * exists token. split; [exact Hl|]. split; [|split; [exact Hu|exact Hdata]].
        rewrite Hsub, Hid. reflexivity.
Defined.

Lemma register_cria_administrador_witness :
  (exists created db' r,
     @RoutesAuth.post_register Sample.helpers 1 1 None Sample.novo_admin
       Sample.vazio
     = (Success 201 created, db')
     /\ tbl_usuarios db' = [r]
     /\ usuarios.is_admin r = 1
     /\ UsuarioResponse.is_admin created = true)
  /\ (exists created db' r,
        @RoutesAuth.post_register Sample.helpers 1 1 None
          (UsuarioCreate.mk "José Simões" "RH" "123456" false) Sample.vazio
        = (Success 201 created, db')
        /\ tbl_usuarios db' = [r]
        /\ usuarios.is_admin r = 0
        /\ UsuarioResponse.is_admin created = false).
Proof.
  split.
  - destruct (@register_cria_administrador Sample.helpers 1 1 None
                Sample.novo_admin Sample.vazio)
      as (created & db' & r & E & Hrows & _ & _ & _ & _ & Hadm).
    + reflexivity.
    + intros u Hin. destruct Hin.
    + destruct (Hadm eq_refl) as [Hr Hc].
      exists created, db', r. repeat split; assumption.
  - destruct (@register_cria_administrador Sample.helpers 1 1 None
                (UsuarioCreate.mk "José Simões" "RH" "123456" false)
                Sample.vazio)
      as (created & db' & r & E & Hrows & _ & Hr & Hc & _).
    + reflexivity.
    + intros u Hin. destruct Hin.
    + exists created, db', r. repeat split; assumption.
Defined.

Lemma quantidade_entre_1_e_8_witness :
  RoutesPedidos.post_pedido
    (RoutesPedidos.criar_pedido 101 12 103 (2#1) Sample.admin)
    (PedidoCreate.mk 1 [ItemPedidoCreate.mk 1 3; ItemPedidoCreate.mk 2 9])
    Sample.db
  = (RequestValidationError, Sample.db)
  /\ RoutesPedidos.post_pedido
       (RoutesPedidos.criar_pedido 101 12 103 (2#1) Sample.admin)
       (PedidoCreate.mk 1 [ItemPedidoCreate.mk 1 0]) Sample.db
     = (RequestValidationError, Sample.db)
  /\ Forall (fun ip => 1 <= itens_pedido.quantidade ip <= 8)
       (tbl_itens_pedido
          (snd (RoutesPedidos.post_pedido
                  (RoutesPedidos.criar_pedido 101 12 103 (2#1) Sample.admin)
                  (PedidoCreate.mk 1 [ItemPedidoCreate.mk 1 3;
                                      ItemPedidoCreate.mk 2 8])
                  Sample.db))).
Proof.
  split; [|split].
  - apply (proj1 (quantidade_entre_1_e_8 101 12 103 (2#1) Sample.admin
                    (PedidoCreate.mk 1 [ItemPedidoCreate.mk 1 3;
                                        ItemPedidoCreate.mk 2 9])
                    Sample.db)).
    exists (ItemPedidoCreate.mk 2 9). split; [simpl; auto | simpl; lia].
  - apply (proj1 (quantidade_entre_1_e_8 101 12 103 (2#1) Sample.admin
                    (PedidoCreate.mk 1 [ItemPedidoCreate.mk 1 0]) Sample.db)).
    exists (ItemPedidoCreate.mk 1 0). split; [simpl; auto | simpl; lia].
  - apply (proj2 (proj2 (quantidade_entre_1_e_8 101 12 103 (2#1) Sample.admin
                           (PedidoCreate.mk 1 [ItemPedidoCreate.mk 1 3;
                                               ItemPedidoCreate.mk 2 8])
                           Sample.db))).
    simpl. repeat constructor; simpl; lia.
Defined.

Lemma pedido_sem_itens_rejeitado_witness :
  RoutesPedidos.post_pedido
    (RoutesPedidos.criar_pedido 101 12 103 (2#1) Sample.admin)
    (PedidoCreate.mk 1 []) Sample.db
  = (RequestValidationError, Sample.db)
  /\ PedidoCreate.itens
       (PedidoCreate.mk 1 [ItemPedidoCreate.mk 1 3]) <> [].
Proof.
  split.
  - apply (proj1 (pedido_sem_itens_rejeitado _
                    (RoutesPedidos.criar_pedido 101 12 103 (2#1) Sample.admin)
                    (PedidoCreate.mk 1 []) Sample.db)).
    reflexivity.
  - apply (proj2 (pedido_sem_itens_rejeitado _
                    (RoutesPedidos.criar_pedido 101 12 103 (2#1) Sample.admin)
                    (PedidoCreate.mk 1 [ItemPedidoCreate.mk 1 3]) Sample.db)).
    reflexivity.
Defined.

(** * Further properties of the routes *)

(** ** Ordering *)

Section OrderFacts.
Context {A : Type}.
Variable key : A -> Z.

Let desc (a b : A) : Prop := key b <= key a.

Lemma insert_desc_perm (x : A) (l : list A) :
  Permutation (Sql.insert_desc key x l) (x :: l).
Proof.
  induction l as [|y l IH]; simpl; [reflexivity|].
  destruct (key y <=? key x); [reflexivity|].
  rewrite IH. apply perm_swap.
Qed.

Lemma order_by_desc_perm (t : list A) :
  Permutation (Sql.order_by_desc key t) t.
Proof.
  induction t as [|a t IH]; simpl; [reflexivity|].
  rewrite insert_desc_perm. now apply perm_skip.
Qed.

Lemma insert_desc_sorted (x : A) (l : list A) :
  StronglySorted desc l -> StronglySorted desc (Sql.insert_desc key x l).
Proof.
  induction 1 as [|y l Hs IH Hy]; simpl.
  - constructor; constructor.
  - destruct (Z.leb_spec (key y) (key x)) as [Hle|Hgt].
    + constructor; [now constructor|].
      constructor; [exact Hle|].
      eapply Forall_impl; [|exact Hy]. unfold desc. intros z Hz. lia.
    + constructor; [exact IH|].
      apply (Permutation_Forall (Permutation_sym (insert_desc_perm x l))).
      constructor; [unfold desc; lia | exact Hy].
Qed.

Lemma order_by_desc_sorted (t : list A) :
  StronglySorted desc (Sql.order_by_desc key t).
Proof.
  induction t as [|a t IH]; simpl; [constructor | now apply insert_desc_sorted].
Qed.





End OrderFacts.

(** ** Listing and fetching events *)

Lemma sorted_EventoResponse_of (l : list eventos.row) :
  StronglySorted (fun a b => eventos.data_evento b <= eventos.data_evento a) l ->
  StronglySorted data_desc (map EventoResponse_of l).
Proof.
  induction 1 as [|a l Hs IH Ha]; simpl; constructor; [exact IH|].
  apply Forall_map. exact Ha.
Qed.



(** X1: [listar_eventos] always answers 200 and leaves the store as it is;
    its body holds every stored event exactly once, latest event date
    first. *)
Theorem listar_eventos_ordenada (current_user : CurrentUser) (db : Database) :
  exists body,
    listar_eventos current_user db = (Success 200 body, db)
    /\ Permutation body (map EventoResponse_of (tbl_eventos db))
    /\ StronglySorted data_desc body.
Proof.
  unfold listar_eventos, endpoint, bind, query, ret, select_eventos.
  eexists. split; [reflexivity|]. split.
  - apply Permutation_map, order_by_desc_perm.
  - apply sorted_EventoResponse_of, order_by_desc_sorted.
Qed.


(** X3: [obter_evento] leaves the store as it is; it answers 200 with an
    event that has the requested id and carries the date, status, deadline
    and creation timestamp of a stored event of that id, or 404, and 404
    only when no stored event has the id. *)
Theorem obter_evento_correct
    (evento_id : Z) (current_user : CurrentUser) (db : Database) :
  snd (obter_evento evento_id current_user db) = db /\
  match fst (obter_evento evento_id current_user db) with
  | Success code body =>
      code = 200 /\
      EventoResponse.id body = evento_id /\
      EventoResponse.nome body = None /\
      exists r, In r (tbl_eventos db) /\ eventos.id r = evento_id
                /\ body = EventoResponse_of r
                /\ EventoResponse.data_evento body = eventos.data_evento r
                /\ EventoResponse.status body = eventos.status r
                /\ EventoResponse.data_limite body = eventos.data_limite r
                /\ EventoResponse.data_criacao body = eventos.data_criacao r
  | HTTPException code detail =>
      code = 404 /\ detail = "Evento não encontrado"
      /\ forall r, In r (tbl_eventos db) -> eventos.id r <> evento_id
  end.
Proof.
  unfold obter_evento, endpoint, bind, query, ret, raise.
  destruct (select_evento evento_id db) as [r|] eqn:E; simpl.
  - split; [reflexivity|]. split; [reflexivity|].
    apply fetchone_where_Some in E as [Hin Hid]. apply Z.eqb_eq in Hid.
    split; [exact Hid|]. split; [reflexivity|].
    exists r. repeat split; auto.
  - split; [reflexivity|]. repeat split.
    unfold select_evento in E. rewrite fetchone_where_None in E.
    intros r Hin. apply Z.eqb_neq. now apply E.
Qed.

(** ** What each writing route does to the store *)

Lemma criar_evento_cases new_id criacao evento current_user db :
  let d := EventoCreate.data_evento evento in
  let r := eventos.mk new_id d "ABERTO" (EventoCreate.data_limite evento) criacao in
  ((exists e, In e (tbl_eventos db) /\ eventos.data_evento e = d)
   /\ criar_evento new_id criacao evento current_user db
      = (HTTPException 400 "Já existe um evento para esta data", db))
  \/ ((forall e, In e (tbl_eventos db) -> eventos.data_evento e <> d)
      /\ criar_evento new_id criacao evento current_user db
         = (Success 201 (EventoResponse_of r),
            with_eventos (tbl_eventos db ++ [r]) db)).
Proof.
  intros d r. unfold criar_evento, endpoint, bind, query, execute, raise, ret.
  fold d. destruct (select_evento_por_data d db) as [e|] eqn:E.
  - left. split; [|reflexivity].
    apply fetchone_where_Some in E as [Hin Hd]. apply Z.eqb_eq in Hd.
    now exists e.
  - right. unfold select_evento_por_data in E. rewrite fetchone_where_None in E.
    assert (Hfree : forall e, In e (tbl_eventos db) -> eventos.data_evento e <> d).
    { intros e Hin. apply Z.eqb_neq. now apply E. }
    split; [exact Hfree|].
    unfold insert_evento. cbv beta iota. fold r.
    unfold select_evento_por_data, with_eventos at 1. cbn [tbl_eventos].
    rewrite fetchone_where_app_fresh;
      [reflexivity | exact E | apply Z.eqb_refl].
Qed.

Lemma atualizar_evento_cases evento_id evento current_user db :
  (exists c d, put_evento evento_id evento current_user db = (HTTPException c d, db))
  \/ (exists old,
        In old (tbl_eventos db) /\ eventos.id old = evento_id
        /\ updates_of evento <> []
        /\ EventoUpdate.valid evento = true
        /\ put_evento evento_id evento current_user db
           = (Success 200
                (EventoResponse_of (apply_updates (updates_of evento) old)),
              fst (update_evento (updates_of evento) evento_id db))
        /\ select_evento evento_id
             (fst (update_evento (updates_of evento) evento_id db))
           = Some (apply_updates (updates_of evento) old)).
Proof.
  unfold put_evento, validated, RequestValidationError.
  destruct (EventoUpdate.valid evento); [|left; eauto].
  unfold atualizar_evento, endpoint, bind, query, execute, raise, ret.
  destruct (select_evento evento_id db) as [old|] eqn:E; [|left; eauto].
  destruct (updates_of evento) as [|f fs] eqn:U; [left; eauto|].
  rewrite <- U. right. exists old.
  assert (Hsel : select_evento evento_id
                   (fst (update_evento (updates_of evento) evento_id db))
                 = Some (apply_updates (updates_of evento) old)).
  { unfold update_evento, select_evento, with_eventos. cbn [fst tbl_eventos].
    rewrite select_evento_after_update
      by (intros e; apply (apply_updates_campos evento e)).
    unfold select_evento in E. now rewrite E. }
  apply fetchone_where_Some in E as [Hin Hid]. apply Z.eqb_eq in Hid.
  split; [exact Hin|]. split; [exact Hid|].
  split; [rewrite U; discriminate|]. split; [reflexivity|].
  split; [|exact Hsel].
  unfold update_evento at 1. cbv beta iota.
  change (with_eventos
            (map (fun e => if eventos.id e =? evento_id
                           then apply_updates (updates_of evento) e else e)
                 (tbl_eventos db)) db)
    with (fst (update_evento (updates_of evento) evento_id db)).
  rewrite Hsel. reflexivity.
Qed.

Lemma deletar_evento_cases evento_id current_user db :
  (exists c d, deletar_evento evento_id current_user db = (HTTPException c d, db))
  \/ (count_pedidos evento_id db = 0
      /\ (exists e, In e (tbl_eventos db) /\ eventos.id e = evento_id)
      /\ deletar_evento evento_id current_user db
         = (Success 204 tt, fst (delete_evento evento_id db))).
Proof.
  unfold deletar_evento, endpoint, bind, query, execute, raise, ret.
  assert (Hnn : 0 <= count_pedidos evento_id db)
    by (unfold count_pedidos, Sql.count; lia).
  destruct (Z.ltb_spec 0 (count_pedidos evento_id db)); [left; eauto|].
  destruct (select_evento evento_id db) as [e|] eqn:E.
  - right. apply fetchone_where_Some in E as [Hin Hid]. apply Z.eqb_eq in Hid.
    pose proof (delete_evento_rowcount evento_id db e Hin Hid) as Hrc.
    destruct (delete_evento evento_id db) as [db' rc]. simpl in Hrc.
    destruct (Z.eqb_spec rc 0); [lia|].
    split; [lia|]. split; [now exists e | reflexivity].
  - left. unfold select_evento in E. rewrite fetchone_where_None in E.
    rewrite delete_evento_absent.
    + simpl. eauto.
    + intros e Hin. apply Z.eqb_neq. now apply E.
Qed.

Lemma put_evento_ok evento_id evento current_user db old :
  EventoUpdate.valid evento = true ->
  select_evento evento_id db = Some old ->
  updates_of evento <> [] ->
  put_evento evento_id evento current_user db
  = (Success 200 (EventoResponse_of (apply_updates (updates_of evento) old)),
     fst (update_evento (updates_of evento) evento_id db)).
Proof.
  intros V E U. unfold put_evento, validated. rewrite V.
  unfold atualizar_evento, endpoint, bind, query, execute, raise, ret.
  rewrite E. destruct (updates_of evento) as [|f fs] eqn:Uf; [congruence|].
  rewrite <- Uf.
  assert (Hsel : select_evento evento_id
                   (fst (update_evento (updates_of evento) evento_id db))
                 = Some (apply_updates (updates_of evento) old)).
  { unfold update_evento, select_evento, with_eventos. cbn [fst tbl_eventos].
    rewrite select_evento_after_update
      by (intros e; apply (apply_updates_campos evento e)).
    unfold select_evento in E. now rewrite E. }
  unfold update_evento at 1. cbv beta iota.
  change (with_eventos
            (map (fun e => if eventos.id e =? evento_id
                           then apply_updates (updates_of evento) e else e)
                 (tbl_eventos db)) db)
    with (fst (update_evento (updates_of evento) evento_id db)).
  rewrite Hsel. reflexivity.
Qed.

(** ** Invariants of the event table *)

Lemma NoDup_map_filter {K R : Type} (col : R -> K) (keep : R -> bool)
    (t : list R) (Hnd : NoDup (map col t)) :
  NoDup (map col (filter keep t)).
Proof.
  induction t as [|r t IH]; cbn in *; [constructor|].
  apply NoDup_cons_iff in Hnd as [Hr Hnd].
  destruct (keep r); cbn; [|now apply IH].
  apply NoDup_cons_iff. split; [|now apply IH].
  intros Hin. apply Hr.
  apply in_map_iff in Hin as (x & Hx & Hf).
  apply filter_In in Hf as [Hf _]. apply in_map_iff. now exists x.
Qed.

Lemma NoDup_snoc {A} (l : list A) (x : A) :
  NoDup l -> ~ In x l -> NoDup (l ++ [x]).
Proof.
  intros Hl Hx. apply NoDup_app; [exact Hl | repeat constructor; intros [] |].
  intros y Hy [<-|[]]. exact (Hx Hy).
Qed.

(** X4: no route of the event table breaks the rule of one event per
    calendar date: if the stored events have pairwise different dates
    before [criar_evento], a PUT or [deletar_evento], they have after it,
    whatever the request and its answer are. *)
Theorem datas_unicas_preservadas
    (new_id : Z) (criacao : option Z) (novo : EventoCreate.t)
    (evento_id : Z) (evento : EventoUpdate.t) (current_user : CurrentUser)
    (db : Database) :
  datas_unicas db ->
  datas_unicas (snd (criar_evento new_id criacao novo current_user db))
  /\ datas_unicas (snd (put_evento evento_id evento current_user db))
  /\ datas_unicas (snd (deletar_evento evento_id current_user db)).
Proof.
  unfold datas_unicas. intros Hnd. split; [|split].
  - destruct (criar_evento_cases new_id criacao novo current_user db)
      as [[_ ->]|[Hfree ->]]; [exact Hnd|].
    cbn [snd with_eventos tbl_eventos]. rewrite map_app. cbn [map].
    apply NoDup_snoc; [exact Hnd|].
    cbn [eventos.data_evento]. intros Hin.
    apply in_map_iff in Hin as (e & He & Hin). exact (Hfree e Hin He).
  - destruct (atualizar_evento_cases evento_id evento current_user db)
      as [(c & d & ->)|(old & _ & _ & _ & _ & -> & _)]; [exact Hnd|].
    cbn [snd fst update_evento with_eventos tbl_eventos].
    rewrite map_map.
    erewrite map_ext; [exact Hnd|].
    intros e. cbv beta. destruct (eventos.id e =? evento_id); [|reflexivity].
    apply (apply_updates_campos evento e).
  - destruct (deletar_evento_cases evento_id current_user db)
      as [(c & d & ->)|(_ & _ & ->)]; [exact Hnd|].
    cbn [snd fst delete_evento with_eventos tbl_eventos].
    now apply NoDup_map_filter.
Qed.

(** ** How the event routes compose *)

Lemma ativo_query_spec systimestamp db :
  match ativo_query systimestamp db with
  | Some r =>
      In r (tbl_eventos db) /\ ativo_where systimestamp r = true
      /\ forall r', In r' (tbl_eventos db) ->
           ativo_where systimestamp r' = true ->
           eventos.data_evento r' <= eventos.data_evento r
  | None =>
      forall r', In r' (tbl_eventos db) -> ativo_where systimestamp r' = false
  end.
Proof.
  unfold ativo_query.
  pose proof (order_by_desc_head eventos.data_evento
                (Sql.where_ (ativo_where systimestamp) (tbl_eventos db))) as H.
  destruct (Sql.order_by_desc eventos.data_evento
              (Sql.where_ (ativo_where systimestamp) (tbl_eventos db)))
    as [|h l]; simpl.
  - intros r' Hin. destruct (ativo_where systimestamp r') eqn:Q; [|reflexivity].
    assert (Hr : In r' (Sql.where_ (ativo_where systimestamp) (tbl_eventos db)))
      by (apply filter_In; auto).
    rewrite H in Hr. destruct Hr.
  - destruct H as [Hin Hmax]. apply filter_In in Hin as [Hin Hq].
    repeat split; auto.
    intros r' Hr' Hq'. apply Hmax. apply filter_In. auto.
Qed.

(** X5: after [criar_evento] has created an event under an id that no
    stored event had, [obter_evento] with that id answers with the created
    event, and the list of [listar_eventos] contains it. *)
Theorem criar_evento_depois_obter
    (new_id : Z) (criacao : option Z) (evento : EventoCreate.t)
    (admin current_user : CurrentUser) (db : Database) :
  (forall e, In e (tbl_eventos db) ->
             eventos.data_evento e <> EventoCreate.data_evento evento) ->
  (forall e, In e (tbl_eventos db) -> eventos.id e <> new_id) ->
  exists body db' lista,
    criar_evento new_id criacao evento admin db = (Success 201 body, db')
    /\ EventoResponse.id body = new_id
    /\ obter_evento new_id current_user db' = (Success 200 body, db')
    /\ listar_eventos current_user db' = (Success 200 lista, db')
    /\ In body lista.
Proof.
  intros Hdate Hid.
  destruct (criar_evento_cases new_id criacao evento admin db)
    as [[(e & Hin & Hd) _]|[_ E]]; [exfalso; exact (Hdate e Hin Hd)|].
  rewrite E. eexists. eexists. eexists.
  split; [reflexivity|]. split; [reflexivity|]. split; [|split].
  - unfold obter_evento, endpoint, bind, query, ret, select_evento, with_eventos.
    cbn [tbl_eventos].
    rewrite fetchone_where_app_fresh; [reflexivity | | apply Z.eqb_refl].
    intros y Hy. apply Z.eqb_neq. now apply Hid.
  - unfold listar_eventos, endpoint, bind, query, ret. reflexivity.
  - apply in_map. unfold select_eventos.
    apply (Permutation_in _ (Permutation_sym (order_by_desc_perm _ _))).
    cbn [with_eventos tbl_eventos]. apply in_or_app. right. now left.
Qed.

(** X6: after [deletar_evento] has answered 204 for an id, [obter_evento]
    and a second [deletar_evento] with that id both answer 404 and leave
    the store as it is. *)
Theorem deletar_evento_depois_404
    (evento_id : Z) (admin current_user : CurrentUser) (db db' : Database) :
  deletar_evento evento_id admin db = (Success 204 tt, db') ->
  obter_evento evento_id current_user db'
  = (HTTPException 404 "Evento não encontrado", db')
  /\ deletar_evento evento_id admin db'
     = (HTTPException 404 "Evento não encontrado", db').
Proof.
  intros H.
  destruct (deletar_evento_cases evento_id admin db)
    as [(c & d & E)|(Hcount & _ & E)]; [congruence|].
  assert (Hdb' : db' = fst (delete_evento evento_id db)) by congruence.
  clear H E.
  assert (Habs : forall e, In e (tbl_eventos db') -> eventos.id e <> evento_id).
  { subst db'. cbn [fst delete_evento with_eventos tbl_eventos]. intros e Hin.
    apply filter_In in Hin as [_ Hin].
    now apply negb_true_iff, Z.eqb_neq in Hin. }
  assert (Hcount' : count_pedidos evento_id db' = 0)
    by (subst db'; exact Hcount).
  clear Hdb'. split.
  - unfold obter_evento, endpoint, bind, query, raise.
    assert (Hsel : select_evento evento_id db' = None).
    { unfold select_evento. apply fetchone_where_None.
      intros e Hin. apply Z.eqb_neq. now apply Habs. }
    now rewrite Hsel.
  - unfold deletar_evento, endpoint, bind, query, execute, raise, ret.
    rewrite Hcount'. change (0 <? 0) with false. cbv beta iota.
    rewrite (delete_evento_absent evento_id _ Habs). reflexivity.
Qed.

(** X7: after a PUT has given an event a status other than ABERTO, or a
    deadline that is not after the current instant, [obter_evento_ativo]
    does not answer with an event of that id. *)
Theorem evento_fechado_nao_ativo
    (evento_id systimestamp : Z) (evento : EventoUpdate.t)
    (admin current_user : CurrentUser) (body : EventoResponse.t)
    (db db' : Database) :
  put_evento evento_id evento admin db = (Success 200 body, db') ->
  (exists s, EventoUpdate.status evento = Some s /\ s <> "ABERTO")
  \/ (exists d, EventoUpdate.data_limite evento = Some d /\ d <= systimestamp) ->
  match fst (obter_evento_ativo systimestamp current_user db') with
  | Success _ ativo => EventoResponse.id ativo <> evento_id
  | HTTPException code _ => code = 404
  end.
Proof.
  intros H Hclosed.
  destruct (atualizar_evento_cases evento_id evento admin db)
    as [(c & d & E)|(old & _ & _ & _ & _ & E & _)]; [congruence|].
  assert (Hdb' : db' = fst (update_evento (updates_of evento) evento_id db))
    by congruence.
  clear H E.
  unfold obter_evento_ativo, endpoint, bind, query, raise, ret.
  pose proof (ativo_query_spec systimestamp db') as Hq.
  destruct (ativo_query systimestamp db') as [r|]; [|reflexivity].
  cbn [fst]. destruct Hq as (Hin & Hat & _).
  cbn [EventoResponse_of EventoResponse.id]. intros Hid.
  subst db'. cbn [fst update_evento with_eventos tbl_eventos] in Hin.
  apply in_map_iff in Hin as (e & He & _).
  assert (Hr : r = apply_updates (updates_of evento) e).
  { destruct (eventos.id e =? evento_id) eqn:Ee; [now symmetry|].
    subst r. apply Z.eqb_neq in Ee. contradiction. }
  destruct (apply_updates_campos evento e) as (_ & _ & _ & Hst & Hdl).
  rewrite <- Hr in Hst, Hdl.
  apply ativo_where_true in Hat as [Hs Hd].
  destruct Hclosed as [(s & Es & Hs')|(d & Ed & Hd')].
  - rewrite Es in Hst. congruence.
  - rewrite Ed in Hdl. lia.
Qed.

Lemma ativo_existe systimestamp current_user db r :
  In r (tbl_eventos db) -> ativo_where systimestamp r = true ->
  exists a,
    obter_evento_ativo systimestamp current_user db
    = (Success 200 (EventoResponse_of a), db)
    /\ In a (tbl_eventos db) /\ ativo_where systimestamp a = true
    /\ eventos.data_evento r <= eventos.data_evento a.
Proof.
  intros Hin Hr.
  unfold obter_evento_ativo, endpoint, bind, query, raise, ret.
  pose proof (ativo_query_spec systimestamp db) as Hq.
  destruct (ativo_query systimestamp db) as [a|].
  - destruct Hq as (Ha & Hat & Hmax). exists a. auto.
  - rewrite (Hq r Hin) in Hr. discriminate.
Qed.

(** X8: after [criar_evento] has created an event whose deadline is after
    the current instant, [obter_evento_ativo] does not answer 404: it
    answers with an open event dated no earlier than the created one. *)
Theorem criar_evento_fica_ativo
    (new_id systimestamp : Z) (criacao : option Z) (evento : EventoCreate.t)
    (admin current_user : CurrentUser) (body : EventoResponse.t)
    (db db' : Database) :
  criar_evento new_id criacao evento admin db = (Success 201 body, db') ->
  systimestamp < EventoCreate.data_limite evento ->
  exists ativo,
    obter_evento_ativo systimestamp current_user db' = (Success 200 ativo, db')
    /\ aberto_em systimestamp ativo = true
    /\ EventoResponse.data_evento body <= EventoResponse.data_evento ativo.
Proof.
  intros H Hfut.
  destruct (criar_evento_cases new_id criacao evento admin db)
    as [[_ E]|[_ E]]; [congruence|].
  set (r := eventos.mk new_id (EventoCreate.data_evento evento) "ABERTO"
              (EventoCreate.data_limite evento) criacao) in E.
  assert (Hb : body = EventoResponse_of r) by congruence.
  assert (Hdb' : db' = with_eventos (tbl_eventos db ++ [r]) db) by congruence.
  clear H E.
  destruct (ativo_existe systimestamp current_user db' r) as (a & Ea & _ & Hat & Hle).
  - subst db'. cbn [with_eventos tbl_eventos]. apply in_or_app. right. now left.
  - apply ativo_where_true. split; [reflexivity | exact Hfut].
  - exists (EventoResponse_of a). split; [exact Ea|]. split; [exact Hat|].
    subst body. exact Hle.
Qed.

(** X9: after a PUT has set an event to ABERTO with a deadline after the
    current instant, [obter_evento_ativo] does not answer 404: it answers
    with an open event dated no earlier than the updated one. *)
Theorem evento_reaberto_fica_ativo
    (evento_id systimestamp d : Z) (admin current_user : CurrentUser)
    (body : EventoResponse.t) (db db' : Database) :
  put_evento evento_id (EventoUpdate.mk (Some "ABERTO") (Some d)) admin db
  = (Success 200 body, db') ->
  systimestamp < d ->
  exists ativo,
    obter_evento_ativo systimestamp current_user db' = (Success 200 ativo, db')
    /\ aberto_em systimestamp ativo = true
    /\ EventoResponse.data_evento body <= EventoResponse.data_evento ativo.
Proof.
  intros H Hfut.
  set (evento := EventoUpdate.mk (Some "ABERTO") (Some d)) in *.
  destruct (atualizar_evento_cases evento_id evento admin db)
    as [(c & dt & E)|(old & Hold & Hid & _ & _ & E & _)]; [congruence|].
  set (r := apply_updates (updates_of evento) old) in E.
  assert (Hb : body = EventoResponse_of r) by congruence.
  assert (Hdb' : db' = fst (update_evento (updates_of evento) evento_id db))
    by congruence.
  clear H E.
  destruct (ativo_existe systimestamp current_user db' r) as (a & Ea & _ & Hat & Hle).
  - subst db'. cbn [fst update_evento with_eventos tbl_eventos].
    apply in_map_iff. exists old. split; [|exact Hold].
    apply Z.eqb_eq in Hid. now rewrite Hid.
  - apply ativo_where_true. split; [reflexivity | exact Hfut].
  - exists (EventoResponse_of a). split; [exact Ea|]. split; [exact Hat|].
    subst body. exact Hle.
Qed.

Lemma apply_updates_idem (evento : EventoUpdate.t) (e : eventos.row) :
  apply_updates (updates_of evento) (apply_updates (updates_of evento) e)
  = apply_updates (updates_of evento) e.
Proof. destruct evento as [[s|] [d|]], e; reflexivity. Qed.

(** X10: after a PUT has answered 200, [obter_evento] with the same id
    answers with the event the PUT returned, and the same PUT again
    answers with the same event and leaves the store as the first left
    it. *)
Theorem put_evento_depois_obter
    (evento_id : Z) (evento : EventoUpdate.t) (admin current_user : CurrentUser)
    (body : EventoResponse.t) (db db' : Database) :
  put_evento evento_id evento admin db = (Success 200 body, db') ->
  obter_evento evento_id current_user db' = (Success 200 body, db')
  /\ put_evento evento_id evento admin db' = (Success 200 body, db').
Proof.
  intros H.
  destruct (atualizar_evento_cases evento_id evento admin db)
    as [(c & d & E)|(old & _ & _ & Hups & V & E & Hsel)]; [congruence|].
  assert (Hb : body = EventoResponse_of (apply_updates (updates_of evento) old))
    by congruence.
  assert (Hdb' : db' = fst (update_evento (updates_of evento) evento_id db))
    by congruence.
  rewrite <- Hdb' in Hsel. clear H E. split.
  - unfold obter_evento, endpoint, bind, query, ret. rewrite Hsel. now subst body.
  - rewrite (put_evento_ok evento_id evento admin db' _ V Hsel Hups).
    rewrite apply_updates_idem. subst body. f_equal.
    subst db'. unfold update_evento, with_eventos. cbn [fst tbl_eventos
      tbl_usuarios tbl_sabores tbl_pedidos tbl_itens_pedido].
    f_equal. rewrite map_map. apply map_ext. intros e.
    destruct (eventos.id e =? evento_id) eqn:Ee; [|now rewrite Ee].
    assert (Hid : eventos.id (apply_updates (updates_of evento) e) = eventos.id e)
      by apply (apply_updates_campos evento e).
    rewrite Hid, Ee. apply apply_updates_idem.
Qed.

(** X11: after [criar_evento] has created an event, a second
    [criar_evento] for the same date answers 400 and leaves the store as
    it is, whatever its deadline and the id the store would give. *)
Theorem criar_evento_duas_vezes
    (new_id new_id2 : Z) (criacao criacao2 : option Z)
    (evento evento2 : EventoCreate.t) (admin admin2 : CurrentUser)
    (body : EventoResponse.t) (db db' : Database) :
  criar_evento new_id criacao evento admin db = (Success 201 body, db') ->
  EventoCreate.data_evento evento2 = EventoCreate.data_evento evento ->
  criar_evento new_id2 criacao2 evento2 admin2 db'
  = (HTTPException 400 "Já existe um evento para esta data", db').
Proof.
  intros H Hd.
  destruct (criar_evento_cases new_id criacao evento admin db)
    as [[_ E]|[_ E]]; [congruence|].
  assert (Hdb' : db' = with_eventos
                         (tbl_eventos db
                          ++ [eventos.mk new_id (EventoCreate.data_evento evento)
                                "ABERTO" (EventoCreate.data_limite evento) criacao])
                         db) by congruence.
  clear H E.
  destruct (criar_evento_cases new_id2 criacao2 evento2 admin2 db')
    as [[_ E2]|[Hfree _]]; [exact E2|].
  exfalso. eapply Hfree.
  - subst db'. cbn [with_eventos tbl_eventos]. apply in_or_app. right. now left.
  - cbn [eventos.data_evento]. congruence.
Qed.

(** X12: creating an event and deleting it again leaves the store as it
    was, when the id the store gave was new and no order refers to it. *)
Theorem criar_depois_deletar
    (new_id : Z) (criacao : option Z) (evento : EventoCreate.t)
    (admin : CurrentUser) (body : EventoResponse.t) (db db' : Database) :
  criar_evento new_id criacao evento admin db = (Success 201 body, db') ->
  (forall e, In e (tbl_eventos db) -> eventos.id e <> new_id) ->
  (forall p, In p (tbl_pedidos db) -> pedidos.evento_id p <> new_id) ->
  deletar_evento (EventoResponse.id body) admin db' = (Success 204 tt, db).
Proof.
  intros H Hid Hped.
  destruct (criar_evento_cases new_id criacao evento admin db)
    as [[_ E]|[_ E]]; [congruence|].
  set (r := eventos.mk new_id (EventoCreate.data_evento evento) "ABERTO"
              (EventoCreate.data_limite evento) criacao) in E.
  assert (Hb : body = EventoResponse_of r) by congruence.
  assert (Hdb' : db' = with_eventos (tbl_eventos db ++ [r]) db) by congruence.
  clear H E. subst body. cbn [EventoResponse_of EventoResponse.id r eventos.id].
  destruct (deletar_evento_cases new_id admin db')
    as [(c & d & E)|(_ & _ & E)].
  - exfalso. revert E.
    unfold deletar_evento, endpoint, bind, query, execute, raise, ret.
    assert (Hc : count_pedidos new_id db' = 0).
    { subst db'. unfold count_pedidos. cbn [with_eventos tbl_pedidos].
      rewrite where_none_nil; [reflexivity|].
      intros p Hp. apply Z.eqb_neq. now apply Hped. }
    rewrite Hc. change (0 <? 0) with false. cbv beta iota.
    pose proof (delete_evento_rowcount new_id db' r) as Hrc.
    destruct (delete_evento new_id db') as [db1 rc]. cbn [snd] in Hrc.
    assert (0 < rc).
    { apply Hrc; [|reflexivity]. subst db'. cbn [with_eventos tbl_eventos].
      apply in_or_app. right. now left. }
    destruct (Z.eqb_spec rc 0); [lia | discriminate].
  - rewrite E. f_equal. subst db'.
    unfold delete_evento, with_eventos, Sql.where_.
    cbn [fst tbl_eventos tbl_usuarios tbl_sabores tbl_pedidos tbl_itens_pedido].
    rewrite filter_app. cbn [filter r eventos.id].
    rewrite Z.eqb_refl. cbn [negb]. rewrite app_nil_r.
    pose proof (where_all_id (fun e => negb (eventos.id e =? new_id))
                  (tbl_eventos db)) as Hw.
    unfold Sql.where_ in Hw. rewrite Hw.
    + now destruct db.
    + intros e He. apply negb_true_iff, Z.eqb_neq. now apply Hid.
Qed.

(** ** Bounds on the counters of the summary *)

Lemma nodup_length_le (ids : list Z) :
  Z.of_nat (List.length (nodup Z.eq_dec ids)) <= Z.of_nat (List.length ids).
Proof.
  apply Nat2Z.inj_le, NoDup_incl_length; [apply NoDup_nodup|].
  intros x Hx. now apply nodup_In in Hx.
Qed.

Lemma sumZ_ge_length {A} (f : A -> Z) (l : list A) :
  (forall x, 1 <= f x) ->
  Z.of_nat (List.length l) <= sumZ (map f l)
  /\ (sumZ (map f l) = Z.of_nat (List.length l) <-> forall x, In x l -> f x = 1).
Proof.
  intros Hf. induction l as [|a l [IHle IHeq]].
  - simpl. split; [lia|]. split; [intros _ x [] | reflexivity].
  - cbn [map sumZ fold_right List.length]. fold (sumZ (map f l)).
    rewrite Nat2Z.inj_succ. pose proof (Hf a). split; [lia|]. split.
    + intros Hs x [<-|Hx]; [lia|]. apply IHeq; [lia | exact Hx].
    + intros Hall. rewrite (Hall a (or_introl eq_refl)).
      assert (sumZ (map f l) = Z.of_nat (List.length l)); [|lia].
      apply IHeq. intros x Hx. apply Hall. now right.
Qed.

(** X13: in the summary of a stored event, [total_participantes] is at
    most the number of orders of the event and [total_pedidos] is at least
    that number; [total_pedidos] is that number exactly when no order of
    the event has more than one line item. *)
Theorem resumo_contagens_limites
    (evento_id : Z) (current_user : CurrentUser) (db : Database) :
  (exists e, In e (tbl_eventos db) /\ eventos.id e = evento_id) ->
  exists body,
    obter_resumo_evento evento_id current_user db = (Success 200 body, db)
    /\ 0 <= ResumoEvento.total_participantes body
         <= Z.of_nat (List.length (pedidos_do_evento evento_id db))
    /\ Z.of_nat (List.length (pedidos_do_evento evento_id db))
       <= ResumoEvento.total_pedidos body
    /\ (ResumoEvento.total_pedidos body
        = Z.of_nat (List.length (pedidos_do_evento evento_id db))
        <-> forall p, In p (pedidos_do_evento evento_id db) ->
              (List.length (filter (stats_on p) (tbl_itens_pedido db)) <= 1)%nat).
Proof.
  intros Hex.
  destruct (obter_resumo_evento_contagens evento_id current_user db Hex)
    as (body & E & Hpart & Hped).
  exists body. split; [exact E|]. rewrite Hpart, Hped.
  set (f := fun p : pedidos.row =>
              Z.max 1 (Z.of_nat (List.length
                                   (filter (stats_on p) (tbl_itens_pedido db))))).
  destruct (sumZ_ge_length f (pedidos_do_evento evento_id db)) as [Hle Heq].
  { intros x. unfold f. lia. }
  split; [|split; [exact Hle|]].
  - pose proof (nodup_length_le
                  (map pedidos.usuario_id (pedidos_do_evento evento_id db))) as Hn.
    rewrite length_map in Hn. lia.
  - rewrite Heq. unfold f. split.
    + intros H p Hp. specialize (H p Hp). lia.
    + intros H p Hp. specialize (H p Hp). lia.
Qed.

(** ** Orders keep their event *)

(** X14: no route of the event table leaves an order without its event:
    if every order refers to a stored event before [criar_evento], a PUT
    or [deletar_evento], every order does after it. *)
Theorem fk_pedidos_eventos_preservada
    (new_id : Z) (criacao : option Z) (novo : EventoCreate.t)
    (evento_id : Z) (evento : EventoUpdate.t) (current_user : CurrentUser)
    (db : Database) :
  fk_pedidos_eventos db ->
  fk_pedidos_eventos (snd (criar_evento new_id criacao novo current_user db))
  /\ fk_pedidos_eventos (snd (put_evento evento_id evento current_user db))
  /\ fk_pedidos_eventos (snd (deletar_evento evento_id current_user db)).
Proof.
  unfold fk_pedidos_eventos. intros Hfk. split; [|split].
  - destruct (criar_evento_cases new_id criacao novo current_user db)
      as [[_ ->]|[_ ->]]; [exact Hfk|].
    cbn [snd with_eventos tbl_eventos tbl_pedidos]. intros p Hp.
    destruct (Hfk p Hp) as (e & He & Hid). exists e.
    split; [apply in_or_app; now left | exact Hid].
  - destruct (atualizar_evento_cases evento_id evento current_user db)
      as [(c & d & ->)|(old & _ & _ & _ & _ & -> & _)]; [exact Hfk|].
    cbn [snd fst update_evento with_eventos tbl_eventos tbl_pedidos].
    intros p Hp. destruct (Hfk p Hp) as (e & He & Hid).
    exists (if eventos.id e =? evento_id
            then apply_updates (updates_of evento) e else e).
    split; [apply in_map_iff; now exists e|].
    destruct (eventos.id e =? evento_id); [|exact Hid].
    rewrite <- Hid. apply (apply_updates_campos evento e).
  - destruct (deletar_evento_cases evento_id current_user db)
      as [(c & d & ->)|(Hcount & _ & ->)]; [exact Hfk|].
    cbn [snd fst delete_evento with_eventos tbl_eventos tbl_pedidos].
    intros p Hp. destruct (Hfk p Hp) as (e & He & Hid).
    exists e. split; [|exact Hid]. apply filter_In. split; [exact He|].
    apply negb_true_iff, Z.eqb_neq. rewrite Hid. intros Hp'.
    unfold count_pedidos, Sql.count, Sql.where_ in Hcount.
    assert (Hin : In p (filter (fun p0 => pedidos.evento_id p0 =? evento_id)
                               (tbl_pedidos db)))
      by (apply filter_In; split; [exact Hp | now apply Z.eqb_eq]).
    destruct (filter _ (tbl_pedidos db)); [destruct Hin | discriminate].
Qed.

(** ** Registration keeps names unique *)

Section RegisterInvariant.
Context {helpers : AuthHelpers}.
Import RoutesAuth.

(** X15: [POST /auth/register] never removes or changes a stored user and
    touches no other table; if the stored users have pairwise different
    names before it, they have after it, whatever the request and its
    answer are. *)
Theorem nomes_unicos_preservados
    (new_id ativo : Z) (cadastro : option Z) (user : UsuarioCreate.t)
    (db : Database) :
  let db' := snd (post_register new_id ativo cadastro user db) in
  (nomes_unicos db -> nomes_unicos db')
  /\ (forall u, In u (tbl_usuarios db) -> In u (tbl_usuarios db'))
  /\ tbl_eventos db' = tbl_eventos db
  /\ tbl_pedidos db' = tbl_pedidos db
  /\ tbl_itens_pedido db' = tbl_itens_pedido db
  /\ tbl_sabores db' = tbl_sabores db.
Proof.
  intros db'. subst db'. unfold post_register, validated, nomes_unicos.
  destruct (UsuarioCreate.valid user); [|cbn [snd]; tauto].
  destruct (Sql.fetchone
              (Sql.where_ (fun u => String.eqb (usuarios.nome_completo u)
                                      (UsuarioCreate.nome_completo user))
                          (tbl_usuarios db))) as [u|] eqn:E.
  - apply fetchone_where_Some in E as [Hin Hn]. apply String.eqb_eq in Hn.
    rewrite register_duplicate by (now exists u). cbn [snd]. tauto.
  - rewrite fetchone_where_None in E.
    assert (Hfresh : forall u, In u (tbl_usuarios db) ->
              usuarios.nome_completo u <> UsuarioCreate.nome_completo user).
    { intros u Hu. apply String.eqb_neq. now apply E. }
    rewrite (register_fresh new_id ativo cadastro user db Hfresh).
    cbn [snd with_usuarios tbl_usuarios tbl_eventos tbl_pedidos
         tbl_itens_pedido tbl_sabores].
    split; [|split; [|repeat split; reflexivity]].
    + intros Hnd. rewrite map_app. cbn [map].
      apply NoDup_snoc; [exact Hnd|].
      cbn [usuario_registrado usuarios.nome_completo]. intros Hin.
      apply in_map_iff in Hin as (u & Hu & Hin). exact (Hfresh u Hin Hu).
    + intros u Hu. apply in_or_app. now left.
Qed.
End RegisterInvariant.

(** ** Size of a valid order request *)

(** X16: an order request that passes validation has at least one item,
    and the slices it asks for are at least as many as its items and at
    most eight times as many. *)
Theorem pedido_valido_limites (p : PedidoCreate.t) :
  PedidoCreate.valid p = true ->
  let n := Z.of_nat (List.length (PedidoCreate.itens p)) in
  1 <= n /\ n <= pedacos_pedidos p <= 8 * n.
Proof.
  unfold PedidoCreate.valid, pedacos_pedidos. intros V.
  apply andb_true_iff in V as [Hlen Hall].
  apply Nat.leb_le in Hlen. rewrite forallb_forall in Hall.
  cbv zeta. split; [lia|]. clear Hlen.
  induction (PedidoCreate.itens p) as [|item l IH]; [simpl; lia|].
  cbn [map sumZ fold_right List.length].
  fold (sumZ (map ItemPedidoCreate.quantidade l)).
  pose proof (Hall item (or_introl eq_refl)) as Hi.
  unfold ItemPedidoCreate.valid in Hi.
  apply andb_true_iff in Hi as [H0 H8].
  apply Z.ltb_lt in H0. apply Z.leb_le in H8.
  specialize (IH (fun x Hx => Hall x (or_intror Hx))).
  rewrite Nat2Z.inj_succ. lia.
Qed.

(** ** A missing event, and the other events *)

(** X17: [obter_resumo_evento] answers 404 and leaves the store as it is
    when no stored event has the id, also when orders refer to that id. *)
Theorem obter_resumo_evento_404
    (evento_id : Z) (current_user : CurrentUser) (db : Database) :
  (forall e, In e (tbl_eventos db) -> eventos.id e <> evento_id) ->
  obter_resumo_evento evento_id current_user db
  = (HTTPException 404 "Evento não encontrado", db).
Proof.
  intros Habs. unfold obter_resumo_evento, endpoint, bind, query, raise.
  assert (E : select_evento evento_id db = None).
  { unfold select_evento. apply fetchone_where_None.
    intros e Hin. apply Z.eqb_neq. now apply Habs. }
  now rewrite E.
Qed.

Lemma select_evento_outro (f : eventos.row -> eventos.row)
    (evento_id outro : Z) (t : list eventos.row) :
  outro <> evento_id ->
  (forall e, eventos.id (f e) = eventos.id e) ->
  filter (fun e => eventos.id e =? outro)
         (map (fun e => if eventos.id e =? evento_id then f e else e) t)
  = filter (fun e => eventos.id e =? outro) t.
Proof.
  intros Hne Hid. induction t as [|a t IH]; simpl; [reflexivity|].
  destruct (Z.eqb_spec (eventos.id a) evento_id) as [Ha|Ha].
  - rewrite Hid, IH. destruct (Z.eqb_spec (eventos.id a) outro); [congruence|].
    reflexivity.
  - now rewrite IH.
Qed.

(** X18: a write to one event leaves what the store answers for the other
    ids alone: after a PUT or [deletar_evento] for an id, and after
    [criar_evento] under a new id, [obter_evento] answers for any other id
    what it answered before. *)
Theorem obter_evento_outros_ids
    (new_id : Z) (criacao : option Z) (novo : EventoCreate.t)
    (evento_id : Z) (evento : EventoUpdate.t)
    (admin current_user : CurrentUser) (outro : Z) (db : Database) :
  outro <> evento_id -> outro <> new_id ->
  let antes := fst (obter_evento outro current_user db) in
  fst (obter_evento outro current_user
         (snd (criar_evento new_id criacao novo admin db))) = antes
  /\ fst (obter_evento outro current_user
            (snd (put_evento evento_id evento admin db))) = antes
  /\ fst (obter_evento outro current_user
            (snd (deletar_evento evento_id admin db))) = antes.
Proof.
  intros Hne Hnew antes. subst antes.
  assert (Hsel : forall db1,
            select_evento outro db1 = select_evento outro db ->
            fst (obter_evento outro current_user db1)
            = fst (obter_evento outro current_user db)).
  { intros db1 H. unfold obter_evento, endpoint, bind, query, raise, ret.
    rewrite H. now destruct (select_evento outro db). }
  split; [|split]; apply Hsel; unfold select_evento, Sql.where_; f_equal.
  - destruct (criar_evento_cases new_id criacao novo admin db)
      as [[_ ->]|[_ ->]]; [reflexivity|].
    cbn [snd with_eventos tbl_eventos]. rewrite filter_app.
    cbn [filter eventos.id].
    destruct (Z.eqb_spec new_id outro); [congruence | apply app_nil_r].
  - destruct (atualizar_evento_cases evento_id evento admin db)
      as [(c & d & ->)|(old & _ & _ & _ & _ & -> & _)]; [reflexivity|].
    cbn [snd fst update_evento with_eventos tbl_eventos].
    apply select_evento_outro; [exact Hne|].
    intros e. apply (apply_updates_campos evento e).
  - destruct (deletar_evento_cases evento_id admin db)
      as [(c & d & ->)|(_ & _ & ->)]; [reflexivity|].
    cbn [snd fst delete_evento with_eventos tbl_eventos]. unfold Sql.where_.
    induction (tbl_eventos db) as [|a t IH]; simpl; [reflexivity|].
    destruct (Z.eqb_spec (eventos.id a) evento_id) as [Ha|Ha]; simpl.
    + destruct (Z.eqb_spec (eventos.id a) outro); [congruence | exact IH].
    + now rewrite IH.
Qed.

(** ** The further properties at the sample store *)

Lemma datas_unicas_preservadas_witness :
  datas_unicas
    (snd (criar_evento 4 None (EventoCreate.mk 160 165 None) Sample.admin Sample.db))
  /\ datas_unicas
       (snd (put_evento 2 (EventoUpdate.mk (Some "FECHADO") None)
               Sample.admin Sample.db))
  /\ datas_unicas (snd (deletar_evento 2 Sample.admin Sample.db)).
Proof.
  apply (datas_unicas_preservadas 4 None (EventoCreate.mk 160 165 None) 2
           (EventoUpdate.mk (Some "FECHADO") None) Sample.admin Sample.db).
  unfold datas_unicas. simpl. repeat constructor; simpl; intuition discriminate.
Defined.

Lemma criar_evento_depois_obter_witness :
  exists body db' lista,
    criar_evento 4 None (EventoCreate.mk 160 165 None) Sample.admin Sample.db
    = (Success 201 body, db')
    /\ EventoResponse.id body = 4
    /\ obter_evento 4 Sample.admin db' = (Success 200 body, db')
    /\ listar_eventos Sample.admin db' = (Success 200 lista, db')
    /\ In body lista.
Proof.
  apply (criar_evento_depois_obter 4 None (EventoCreate.mk 160 165 None)
           Sample.admin Sample.admin Sample.db).
  - intros e Hin. simpl in Hin.
    destruct Hin as [<-|[<-|[<-|[]]]]; simpl; lia.
  - intros e Hin. simpl in Hin.
    destruct Hin as [<-|[<-|[<-|[]]]]; simpl; lia.
Defined.

Lemma deletar_evento_depois_404_witness :
  let db' := snd (deletar_evento 2 Sample.admin Sample.db) in
  obter_evento 2 Sample.admin db'
  = (HTTPException 404 "Evento não encontrado", db')
  /\ deletar_evento 2 Sample.admin db'
     = (HTTPException 404 "Evento não encontrado", db').
Proof.
  intros db'.
  apply (deletar_evento_depois_404 2 Sample.admin Sample.admin Sample.db db').
  reflexivity.
Defined.

Lemma evento_fechado_nao_ativo_witness :
  let db' := snd (put_evento 3 (EventoUpdate.mk (Some "FECHADO") None)
                    Sample.admin Sample.db) in
  match fst (obter_evento_ativo 101 Sample.admin db') with
  | Success _ ativo => EventoResponse.id ativo <> 3
  | HTTPException code _ => code = 404
  end.
Proof.
  intros db'.
  apply (evento_fechado_nao_ativo 3 101 (EventoUpdate.mk (Some "FECHADO") None)
           Sample.admin Sample.admin
           (EventoResponse.mk 3 130 "FECHADO" 135 None None) Sample.db db').
  - reflexivity.
  - left. exists "FECHADO". split; [reflexivity | discriminate].
Defined.

Lemma criar_evento_fica_ativo_witness :
  let db' := snd (criar_evento 4 None (EventoCreate.mk 160 165 None)
                    Sample.admin Sample.db) in
  exists ativo,
    obter_evento_ativo 101 Sample.admin db' = (Success 200 ativo, db')
    /\ aberto_em 101 ativo = true
    /\ 160 <= EventoResponse.data_evento ativo.
Proof.
  intros db'.
  apply (criar_evento_fica_ativo 4 101 None (EventoCreate.mk 160 165 None)
           Sample.admin Sample.admin
           (EventoResponse.mk 4 160 "ABERTO" 165 None None) Sample.db db').
  - reflexivity.
  - simpl. lia.
Defined.

Lemma evento_reaberto_fica_ativo_witness :
  let db' := snd (put_evento 2 (EventoUpdate.mk (Some "ABERTO") (Some 200))
                    Sample.admin Sample.db) in
  exists ativo,
    obter_evento_ativo 150 Sample.admin db' = (Success 200 ativo, db')
    /\ aberto_em 150 ativo = true
    /\ 70 <= EventoResponse.data_evento ativo.
Proof.
  intros db'.
  apply (evento_reaberto_fica_ativo 2 150 200 Sample.admin Sample.admin
           (EventoResponse.mk 2 70 "ABERTO" 200 None None) Sample.db db').
  - reflexivity.
  - lia.
Defined.

Lemma put_evento_depois_obter_witness :
  let body := EventoResponse.mk 1 100 "FECHADO" 105 None None in
  let db' := snd (put_evento 1 (EventoUpdate.mk (Some "FECHADO") None)
                    Sample.admin Sample.db) in
  obter_evento 1 Sample.admin db' = (Success 200 body, db')
  /\ put_evento 1 (EventoUpdate.mk (Some "FECHADO") None) Sample.admin db'
     = (Success 200 body, db').
Proof.
  intros body db'.
  apply (put_evento_depois_obter 1 (EventoUpdate.mk (Some "FECHADO") None)
           Sample.admin Sample.admin body Sample.db db').
  reflexivity.
Defined.

Lemma criar_evento_duas_vezes_witness :
  let db' := snd (criar_evento 4 None (EventoCreate.mk 160 165 None)
                    Sample.admin Sample.db) in
  criar_evento 5 None (EventoCreate.mk 160 170 (Some "Outro")) Sample.admin db'
  = (HTTPException 400 "Já existe um evento para esta data", db').
Proof.
  intros db'.
  apply (criar_evento_duas_vezes 4 5 None None (EventoCreate.mk 160 165 None)
           (EventoCreate.mk 160 170 (Some "Outro")) Sample.admin Sample.admin
           (EventoResponse.mk 4 160 "ABERTO" 165 None None) Sample.db db').
  - reflexivity.
  - reflexivity.
Defined.

Lemma criar_depois_deletar_witness :
  deletar_evento 4 Sample.admin
    (snd (criar_evento 4 None (EventoCreate.mk 160 165 None)
            Sample.admin Sample.db))
  = (Success 204 tt, Sample.db).
Proof.
  apply (criar_depois_deletar 4 None (EventoCreate.mk 160 165 None) Sample.admin
           (EventoResponse.mk 4 160 "ABERTO" 165 None None) Sample.db).
  - reflexivity.
  - intros e Hin. simpl in Hin.
    destruct Hin as [<-|[<-|[<-|[]]]]; simpl; lia.
  - intros p Hin. simpl in Hin.
    destruct Hin as [<-|[<-|[]]]; simpl; lia.
Defined.

Lemma resumo_contagens_limites_witness :
  exists body,
    obter_resumo_evento 1 Sample.admin Sample.db = (Success 200 body, Sample.db)
    /\ 0 <= ResumoEvento.total_participantes body <= 2
    /\ 2 <= ResumoEvento.total_pedidos body.
Proof.
  destruct (resumo_contagens_limites 1 Sample.admin Sample.db)
    as (body & E & Hpart & Hped & _).
  - exists (eventos.mk 1 100 "ABERTO" 105 None).
    split; [simpl; auto | reflexivity].
  - exists body. split; [exact E|]. split; [exact Hpart | exact Hped].
Defined.

Lemma fk_pedidos_eventos_preservada_witness :
  fk_pedidos_eventos
    (snd (criar_evento 4 None (EventoCreate.mk 160 165 None) Sample.admin Sample.db))
  /\ fk_pedidos_eventos
       (snd (put_evento 2 (EventoUpdate.mk (Some "FECHADO") None)
               Sample.admin Sample.db))
  /\ fk_pedidos_eventos (snd (deletar_evento 2 Sample.admin Sample.db)).
Proof.
  apply (fk_pedidos_eventos_preservada 4 None (EventoCreate.mk 160 165 None) 2
           (EventoUpdate.mk (Some "FECHADO") None) Sample.admin Sample.db).
  intros p Hin. simpl in Hin.
  destruct Hin as [<-|[<-|[]]];
    (exists (eventos.mk 1 100 "ABERTO" 105 None);
     split; [simpl; auto | reflexivity]).
Defined.

Lemma nomes_unicos_preservados_witness :
  nomes_unicos
    (snd (@RoutesAuth.post_register Sample.helpers 7 1 None Sample.novo_admin
            Sample.db))
  /\ In (usuarios.mk 2 "Ana Lima" "h:abc123" "RH" 0 1 None)
        (tbl_usuarios
           (snd (@RoutesAuth.post_register Sample.helpers 7 1 None
                   Sample.novo_admin Sample.db))).
Proof.
  destruct (@nomes_unicos_preservados Sample.helpers 7 1 None Sample.novo_admin
              Sample.db) as (Hnd & Hin & _).
  split.
  - apply Hnd. unfold nomes_unicos. simpl.
    repeat constructor; simpl; intuition discriminate.
  - apply Hin. simpl. auto.
Defined.

Lemma pedido_valido_limites_witness :
  1 <= 2
  /\ 2 <= pedacos_pedidos
            (PedidoCreate.mk 1 [ItemPedidoCreate.mk 1 5; ItemPedidoCreate.mk 2 3])
       <= 8 * 2.
Proof.
  apply (pedido_valido_limites
           (PedidoCreate.mk 1 [ItemPedidoCreate.mk 1 5; ItemPedidoCreate.mk 2 3])).
  reflexivity.
Defined.

Lemma obter_resumo_evento_404_witness :
  obter_resumo_evento 9 Sample.admin Sample.db
  = (HTTPException 404 "Evento não encontrado", Sample.db).
Proof.
  apply (obter_resumo_evento_404 9 Sample.admin Sample.db).
  intros e Hin. simpl in Hin.
  destruct Hin as [<-|[<-|[<-|[]]]]; simpl; lia.
Defined.

Lemma obter_evento_outros_ids_witness :
  fst (obter_evento 1 Sample.admin
         (snd (criar_evento 4 None (EventoCreate.mk 160 165 None)
                 Sample.admin Sample.db)))
  = Success 200 (EventoResponse.mk 1 100 "ABERTO" 105 None None)
  /\ fst (obter_evento 1 Sample.admin
            (snd (put_evento 2 (EventoUpdate.mk (Some "ABERTO") (Some 200))
                    Sample.admin Sample.db)))
     = Success 200 (EventoResponse.mk 1 100 "ABERTO" 105 None None)
  /\ fst (obter_evento 1 Sample.admin
            (snd (deletar_evento 2 Sample.admin Sample.db)))
     = Success 200 (EventoResponse.mk 1 100 "ABERTO" 105 None None).
Proof.
  apply (obter_evento_outros_ids 4 None (EventoCreate.mk 160 165 None) 2
           (EventoUpdate.mk (Some "ABERTO") (Some 200))
           Sample.admin Sample.admin 1 Sample.db); lia.
Defined.

Lemma obter_evento_ativo_correct_witness :
  (exists body,
     fst (obter_evento_ativo 101 Sample.admin Sample.db) = Success 200 body
     /\ EventoResponse.id body = 3
     /\ EventoResponse.data_evento body = 130
     /\ EventoResponse.status body = "ABERTO"
     /\ EventoResponse.data_limite body = 135)
  /\ (exists detail,
        fst (obter_evento_ativo 135 Sample.admin Sample.db)
        = HTTPException 404 detail).
Proof.
  split.
  - pose proof (obter_evento_ativo_correct 101 Sample.admin Sample.db) as [_ H].
    destruct (fst (obter_evento_ativo 101 Sample.admin Sample.db))
      as [code body|code detail].
    + destruct H as (-> & Hst & _ & _ & _
                     & r & Hin & _ & Hid & Hde & _ & Hdl & _ & Hs & Hd & Hmax).
      exists body. split; [reflexivity|].
      assert (Hr : 130 <= eventos.data_evento r).
      { apply (Hmax (eventos.mk 3 130 "ABERTO" 135 None));
          [simpl; auto | reflexivity | simpl; lia]. }
      simpl in Hin. destruct Hin as [<-|[<-|[<-|[]]]].
      * simpl in Hr. lia.
      * simpl in Hr. lia.
      * repeat split; assumption.
    + exfalso. destruct H as (_ & _ & H).
      apply (H (eventos.mk 3 130 "ABERTO" 135 None)); [simpl; auto|].
      split; [reflexivity | simpl; lia].
  - pose proof (obter_evento_ativo_correct 135 Sample.admin Sample.db) as [_ H].
    destruct (fst (obter_evento_ativo 135 Sample.admin Sample.db))
      as [code body|code detail].
    + exfalso. destruct H as (_ & _ & _ & _ & _ & r & Hin & _ & _ & _ & _ & _ & _
                              & _ & Hd & _).
      simpl in Hin. destruct Hin as [<-|[<-|[<-|[]]]]; simpl in Hd; lia.
    + destruct H as (-> & _). now exists detail.
Defined.

Lemma obter_evento_correct_witness :
  (exists body,
     fst (obter_evento 2 Sample.admin Sample.db) = Success 200 body
     /\ EventoResponse.id body = 2
     /\ EventoResponse.data_evento body = 70
     /\ EventoResponse.status body = "FECHADO"
     /\ EventoResponse.data_limite body = 75)
  /\ fst (obter_evento 9 Sample.admin Sample.db)
     = HTTPException 404 "Evento não encontrado".
Proof.
  split.
  - pose proof (obter_evento_correct 2 Sample.admin Sample.db) as [_ H].
    destruct (fst (obter_evento 2 Sample.admin Sample.db))
      as [code body|code detail].
    + destruct H as (-> & Hid & _ & r & Hin & Hr & _ & Hde & Hs & Hdl & _).
      exists body. split; [reflexivity|]. split; [exact Hid|].
      simpl in Hin.
      destruct Hin as [<-|[<-|[<-|[]]]]; try discriminate Hr.
      repeat split; assumption.
    + exfalso. destruct H as (_ & _ & H).
      apply (H (eventos.mk 2 70 "FECHADO" 75 None)); [simpl; auto | reflexivity].
  - pose proof (obter_evento_correct 9 Sample.admin Sample.db) as [_ H].
    destruct (fst (obter_evento 9 Sample.admin Sample.db))
      as [code body|code detail].
    + exfalso. destruct H as (_ & _ & _ & r & Hin & Hr & _).
      simpl in Hin. destruct Hin as [<-|[<-|[<-|[]]]]; discriminate Hr.
    + destruct H as (-> & -> & _). reflexivity.
Defined.

(** The length constraints of [UsuarioCreate] count characters, not bytes:
    a two-character name held in three bytes is refused, and a name of 150
    two-byte characters is accepted. *)
Lemma UsuarioCreate_conta_caracteres :
  len "Zé" = 2%nat /\ String.length "Zé" = 3%nat
  /\ UsuarioCreate.valid (UsuarioCreate.mk "Zé" "TI" "s3nh4!" true) = false
  /\ @RoutesAuth.post_register Sample.helpers 1 1 None
       (UsuarioCreate.mk "Zé" "TI" "s3nh4!" true) Sample.vazio
     = (RequestValidationError, Sample.vazio)
  /\ (forall nome, len nome = 150%nat ->
        UsuarioCreate.valid (UsuarioCreate.mk nome "TI" "s3nh4!" false) = true).
Proof.
  repeat split; try reflexivity.
  intros nome H. unfold UsuarioCreate.valid. cbn [UsuarioCreate.nome_completo].
  rewrite H. reflexivity.
Qed.
